(** * masked-email-bot: credential store, token source and update router

    A shallow embedding of the two stateful pieces of the bot:

    - package [sqlite]: the storage adapter ([CreateUser], [UpdateToken],
      [UpdateLanguageCode], [GetUser], [CreateOAuth2State], [GetOAuth2State])
      and the persisting token source ([Token]);
    - package [telegram]: the update loop [ListenAndServe].

    Go code that mutates the database, writes to the logger or calls the
    wrapped token source is written in state-passing style over a [World]
    record; a Go [error] result is an [option error] ([None] is [nil]) and a
    [(T, error)] result is a [res T]. *)

From Stdlib Require Import ZArith List String Ascii Bool Lia.
Import ListNotations.

Local Open Scope string_scope.
Local Open Scope list_scope.
Local Open Scope Z_scope.

(** ** Go error values *)

(** Modelled from the spec: the four sentinel errors of package [domain]
    (the file declaring them is not among the sources).  The storage adapter
    returns them by name; the spec's taxonomy calls them [AlreadyExists],
    [Internal] and [NotFound] (for a user and for an authorization state). *)
Inductive DomainError : Type :=
| ErrSqliteUserAlreadyExists
| ErrSqliteInternal
| ErrNoUser
| ErrNoState.

(** The error values that reach the code: the domain sentinels, the
    [database/sql] sentinel [sql.ErrNoRows], the driver's [sqlite3.Error]
    struct and its bare result codes [sqlite3.ErrNo], any other error
    ([errors.New]), and an error wrapping another one ([fmt.Errorf] with
    the verb for wrapping). *)
Inductive error : Type :=
| domain_error (e : DomainError)
| sql_ErrNoRows
| sqlite3_Error (Code ExtendedCode : Z)
| sqlite3_ErrNo (n : Z)
| errors_New (text : string)
| fmt_Errorf (text : string) (wrapped : error).

Coercion domain_error : DomainError >-> error.

(** [sqlite3.ErrNotFound = ErrNo(12)], the driver's SQLITE_NOTFOUND code. *)
Definition sqlite3_ErrNotFound : error := sqlite3_ErrNo 12.

Definition DomainError_eq_dec (a b : DomainError) : {a = b} + {a <> b}.
Proof. decide equality. Defined.

Definition error_eq_dec (a b : error) : {a = b} + {a <> b}.
Proof.
  decide equality;
    first [ apply Z.eq_dec | apply string_dec | apply DomainError_eq_dec ].
Defined.

(** [errors.Is]: some error of the chain of [err] equals [target].  Go
    compares an [errors.New] value by identity; here the text of an
    [errors_New] stands for that identity, two of them with one text being
    the same value.  The adapter only ever asks for [sqlite3_ErrNotFound]. *)
Fixpoint errors_Is (err target : error) : bool :=
  if error_eq_dec err target then true
  else match err with
       | fmt_Errorf _ wrapped => errors_Is wrapped target
       | _ => false
       end.

(** The fields of a [sqlite3.Error] the adapter reads. *)
Record Sqlite3Error : Type := mkSqlite3Error {
  Code : Z;
  ExtendedCode : Z
}.

(** [errors.As(err, &sqliteErr)] for a target of type [sqlite3.Error]: the
    first error of the chain that is such a struct; a nil [err] has none. *)
Fixpoint chain_As_Sqlite3Error (err : error) : option Sqlite3Error :=
  match err with
  | sqlite3_Error c x => Some (mkSqlite3Error c x)
  | fmt_Errorf _ wrapped => chain_As_Sqlite3Error wrapped
  | _ => None
  end.

Definition errors_As_Sqlite3Error (err : option error) : option Sqlite3Error :=
  match err with
  | Some e => chain_As_Sqlite3Error e
  | None => None
  end.

(** A Go result [(T, error)]. *)
Inductive res (A : Type) : Type :=
| ok (a : A)
| fail (err : error).
Arguments ok {A} a.
Arguments fail {A} err.

(** ** golang.org/x/oauth2 tokens *)

(** Instants are nanoseconds since the zero [time.Time]; [0] is the zero
    time, for which [IsZero] holds. *)
Definition Time : Type := Z.

Record OAuth2Token : Type := mkToken {
  AccessToken : string;
  TokenType : string;
  RefreshToken : string;
  Expiry : Time
}.

(** The library's early-expiry margin, ten seconds. *)
Definition expiryDelta : Z := 10 * 1000000000.

(** The library's [Token.expired]: a token with no expiry never expires;
    otherwise it counts as expired from [expiryDelta] before its expiry on. *)
Definition Token_expired (timeNow : Time) (t : OAuth2Token) : bool :=
  if Expiry t =? 0 then false
  else Expiry t - expiryDelta <? timeNow.

(** The library's [Token.Valid]: non-nil, with an access token, and not
    expired. *)
Definition Token_Valid (timeNow : Time) (t : option OAuth2Token) : bool :=
  match t with
  | None => false
  | Some t => negb (String.eqb (AccessToken t) "") && negb (Token_expired timeNow t)
  end.

Module sqlite.

(** *** The tables *)

(** A row of [users]: the fastmail_token column is nullable. *)
Record UserRow : Type := mkUserRow {
  telegram_id : Z;
  fastmail_token : option string;
  lang : string
}.

(** A row of [oauth2_states]. *)
Record StateRow : Type := mkStateRow {
  state : string;
  code_verifier : string;
  state_telegram_id : Z
}.

(** The statements the adapter sends, with their bound arguments in the
    order of the placeholders. *)
Inductive Stmt : Type :=
| INSERT_users (telegram_id : Z) (lang : string)
| UPDATE_users_fastmail_token (fastmail_token : string) (telegram_id : Z)
| UPDATE_users_lang (lang : string) (telegram_id : Z)
| SELECT_users (telegram_id : Z)
| INSERT_oauth2_states (state code_verifier : string) (telegram_id : Z)
| SELECT_oauth2_states (state : string).

Inductive Level : Type := InfoLevel | ErrorLevel.

(** Everything the adapter and the token source can change: the two tables,
    the statements the engine has received (oldest first), the logger's
    output, and how often the wrapped token source has been called. *)
Record World : Type := mkWorld {
  users : list UserRow;
  oauth2_states : list StateRow;
  executed : list Stmt;
  logged : list (Level * string * error);
  refreshes : nat
}.

Definition M (A : Type) : Type := World -> A * World.

Definition ret {A} (a : A) : M A := fun w => (a, w).

Definition bind {A B} (c : M A) (k : A -> M B) : M B :=
  fun w => let (a, w') := c w in k a w'.

Notation "x <- c ;; k" := (bind c (fun x => k))
  (at level 61, c at next level, right associativity).
Notation "c ;;; k" := (bind c (fun _ => k))
  (at level 61, right associativity).

Definition set_users (f : list UserRow -> list UserRow) : M unit :=
  fun w => (tt, mkWorld (f (users w)) (oauth2_states w) (executed w) (logged w) (refreshes w)).

Definition set_oauth2_states (f : list StateRow -> list StateRow) : M unit :=
  fun w => (tt, mkWorld (users w) (f (oauth2_states w)) (executed w) (logged w) (refreshes w)).

Definition logger (l : Level) (msg : string) (err : error) : M unit :=
  fun w => (tt, mkWorld (users w) (oauth2_states w) (executed w)
                        (logged w ++ [(l, msg, err)]) (refreshes w)).

(** SQLITE_CONSTRAINT and its extended code SQLITE_CONSTRAINT_PRIMARYKEY. *)
Definition SQLITE_CONSTRAINT : Z := 19.
Definition SQLITE_CONSTRAINT_PRIMARYKEY : Z := 1555.

Definition has_user (id : Z) (rows : list UserRow) : bool :=
  existsb (fun r => telegram_id r =? id) rows.

Definition has_state (s : string) (rows : list StateRow) : bool :=
  existsb (fun r => String.eqb (state r) s) rows.

(** The rows of an identity. *)
Definition users_with (id : Z) (rows : list UserRow) : list UserRow :=
  filter (fun r => telegram_id r =? id) rows.

Section Adapter.

(** The environment of one run. *)

(** What the driver answers instead of running the n-th statement it
    receives (a locked or unreadable file, a full disk, ...); [None] when the
    statement runs. *)
Variable driver_fault : nat -> option error.

(** [encoding/json] on [*oauth2.Token]. *)
Variable json_Marshal : option OAuth2Token -> res string.
Variable json_Unmarshal : string -> res (option OAuth2Token).

(** The clock read by [Token.Valid]. *)
Variable timeNow : Time.

(** The engine records the statement, then either fails as the driver says
    or runs it. *)
Definition receive (s : Stmt) : M (option error) :=
  fun w => (driver_fault (List.length (executed w)),
            mkWorld (users w) (oauth2_states w) (executed w ++ [s]) (logged w) (refreshes w)).

(** Modelled from the spec: the schema (the migration files are not among the
    sources).  Both tables have their first column as primary key: [users]
    holds one row per telegram_id and [oauth2_states] one row per state, and
    an INSERT of a key already there fails with the engine's primary-key
    constraint error and changes nothing.  An UPDATE rewrites the rows that
    match and succeeds also when none does. *)
Definition run (s : Stmt) : M (option error) :=
  match s with
  | INSERT_users id l =>
      fun w =>
        if has_user id (users w)
        then (Some (sqlite3_Error SQLITE_CONSTRAINT SQLITE_CONSTRAINT_PRIMARYKEY), w)
        else (set_users (fun rows => rows ++ [mkUserRow id None l]) ;;; ret None) w
  | UPDATE_users_fastmail_token tok id =>
      set_users (map (fun r => if telegram_id r =? id
                               then mkUserRow (telegram_id r) (Some tok) (lang r)
                               else r)) ;;; ret None
  | UPDATE_users_lang l id =>
      set_users (map (fun r => if telegram_id r =? id
                               then mkUserRow (telegram_id r) (fastmail_token r) l
                               else r)) ;;; ret None
  | INSERT_oauth2_states s v id =>
      fun w =>
        if has_state s (oauth2_states w)
        then (Some (sqlite3_Error SQLITE_CONSTRAINT SQLITE_CONSTRAINT_PRIMARYKEY), w)
        else (set_oauth2_states (fun rows => rows ++ [mkStateRow s v id]) ;;; ret None) w
  | SELECT_users _ | SELECT_oauth2_states _ => ret None
  end.

(** [a.db.Exec(query, args...)], the result set dropped. *)
Definition db_Exec (s : Stmt) : M (option error) :=
  fault <- receive s ;;
  match fault with
  | Some e => ret (Some e)
  | None => run s
  end.

(** [a.db.QueryRow(query, args...)] followed by [row.Scan(...)]: the first
    selected row, and [sql.ErrNoRows] when the query selects none. *)
Definition QueryRow_Scan_users (id : Z) : M (res UserRow) :=
  fault <- receive (SELECT_users id) ;;
  match fault with
  | Some e => ret (fail e)
  | None =>
      fun w => match find (fun r => telegram_id r =? id) (users w) with
               | Some r => (ok r, w)
               | None => (fail sql_ErrNoRows, w)
               end
  end.

Definition QueryRow_Scan_oauth2_states (s : string) : M (res StateRow) :=
  fault <- receive (SELECT_oauth2_states s) ;;
  match fault with
  | Some e => ret (fail e)
  | None =>
      fun w => match find (fun r => String.eqb (state r) s) (oauth2_states w) with
               | Some r => (ok r, w)
               | None => (fail sql_ErrNoRows, w)
               end
  end.

(** *** The adapter *)

(** [domain.User] and [domain.OAuth2State], as the adapter fills them. *)
Record User : Type := mkUser {
  TelegramID : Z;
  FastmailToken : option OAuth2Token;
  LanguageCode : string
}.

Record OAuth2State : Type := mkOAuth2State {
  State : string;
  CodeVerifier : string;
  OAuth2State_TelegramID : Z
}.

Definition CreateUser (telegramID : Z) (languageCode : string) : M (option error) :=
  err <- db_Exec (INSERT_users telegramID languageCode) ;;
  if match errors_As_Sqlite3Error err with
     | Some sqliteErr => ExtendedCode sqliteErr =? 1555
     | None => false
     end
  then
    match err with
    | Some e => logger InfoLevel "Duplicate key value violation!" e
    | None => ret tt
    end ;;;
    ret (Some (domain_error ErrSqliteUserAlreadyExists))
  else
    match err with
    | Some e =>
        logger ErrorLevel "Error while creating a user!" e ;;;
        ret (Some (domain_error ErrSqliteInternal))
    | None => ret None
    end.

Definition UpdateToken (telegramID : Z) (fastmailToken : string) : M (option error) :=
  err <- db_Exec (UPDATE_users_fastmail_token fastmailToken telegramID) ;;
  match err with
  | Some e =>
      logger ErrorLevel "Error while updating a token!" e ;;;
      ret (Some (domain_error ErrSqliteInternal))
  | None => ret None
  end.

Definition UpdateLanguageCode (telegramID : Z) (languageCode : string) : M (option error) :=
  err <- db_Exec (UPDATE_users_lang languageCode telegramID) ;;
  match err with
  | Some e =>
      logger ErrorLevel "Error while updating a language code!" e ;;;
      ret (Some (domain_error ErrSqliteInternal))
  | None => ret None
  end.

Definition GetUser (telegramID : Z) : M (res User) :=
  scanned <- QueryRow_Scan_users telegramID ;;
  match scanned with
  | fail err =>
      if errors_Is err sqlite3_ErrNotFound
      then ret (fail (domain_error ErrNoUser))
      else
        logger ErrorLevel "Error while getting a user!" err ;;;
        ret (fail (domain_error ErrSqliteInternal))
  | ok row =>
      match fastmail_token row with
      | Some tokenStr =>
          match json_Unmarshal tokenStr with
          | fail err =>
              logger ErrorLevel "Error while decoding a Fastmail token!" err ;;;
              ret (fail (domain_error ErrSqliteInternal))
          | ok t => ret (ok (mkUser (telegram_id row) t (lang row)))
          end
      | None => ret (ok (mkUser (telegram_id row) None (lang row)))
      end
  end.

Definition CreateOAuth2State (state codeVerifier : string) (telegramID : Z)
  : M (option error) :=
  err <- db_Exec (INSERT_oauth2_states state codeVerifier telegramID) ;;
  match err with
  | Some e =>
      logger ErrorLevel "Error while creating an OAuth2 state!" e ;;;
      ret (Some (domain_error ErrSqliteInternal))
  | None => ret None
  end.

Definition GetOAuth2State (state : string) : M (res OAuth2State) :=
  scanned <- QueryRow_Scan_oauth2_states state ;;
  match scanned with
  | fail err =>
      if errors_Is err sqlite3_ErrNotFound
      then ret (fail (domain_error ErrNoState))
      else
        logger ErrorLevel "Error while getting an OAuth2 state!" err ;;;
        ret (fail (domain_error ErrSqliteInternal))
  | ok row => ret (ok (mkOAuth2State state (code_verifier row) (state_telegram_id row)))
  end.

(** *** The token source *)

(** A wrapped [oauth2.TokenSource], by the answer of its n-th call. *)
Definition TokenSource : Type := nat -> res (option OAuth2Token).

(** The [database] field is the adapter itself, whose state is the world. *)
Record tokenSource : Type := mkTokenSource {
  baseTokenSource : TokenSource;
  telegramID : Z
}.

Definition NewTokenSource (baseTokenSource : TokenSource) (telegramID : Z) : tokenSource :=
  mkTokenSource baseTokenSource telegramID.

(** [src.Token()] on a wrapped source: its next answer, and one more call
    counted. *)
Definition TokenSource_Token (src : TokenSource) : M (res (option OAuth2Token)) :=
  fun w => (src (refreshes w),
            mkWorld (users w) (oauth2_states w) (executed w) (logged w) (S (refreshes w))).

Definition Token (ts : tokenSource) : M (res (option OAuth2Token)) :=
  got <- GetUser (telegramID ts) ;;
  match got with
  | fail err => ret (fail err)
  | ok user =>
      if Token_Valid timeNow (FastmailToken user)
      then ret (ok (FastmailToken user))
      else
        refreshed <- TokenSource_Token (baseTokenSource ts) ;;
        match refreshed with
        | fail err => ret (fail err)
        | ok token =>
            match json_Marshal token with
            | fail err => ret (fail err)
            | ok b =>
                err <- UpdateToken (telegramID ts) b ;;
                match err with
                | Some e => ret (fail e)
                | None => ret (ok token)
                end
            end
        end
  end.

(** *** Clients of the adapter *)

(** One call on the [domain.Database] interface, or on a token source that
    [NewTokenSource] made. *)
Inductive Call : Type :=
| Call_CreateUser (telegramID : Z) (languageCode : string)
| Call_UpdateToken (telegramID : Z) (fastmailToken : string)
| Call_UpdateLanguageCode (telegramID : Z) (languageCode : string)
| Call_GetUser (telegramID : Z)
| Call_CreateOAuth2State (state codeVerifier : string) (telegramID : Z)
| Call_GetOAuth2State (state : string)
| Call_Token (ts : tokenSource).

(** The world a call leaves behind, and the world a sequence of calls
    leaves behind. *)
Definition after (c : Call) (w : World) : World :=
  match c with
  | Call_CreateUser id l => snd (CreateUser id l w)
  | Call_UpdateToken id tok => snd (UpdateToken id tok w)
  | Call_UpdateLanguageCode id l => snd (UpdateLanguageCode id l w)
  | Call_GetUser id => snd (GetUser id w)
  | Call_CreateOAuth2State s v id => snd (CreateOAuth2State s v id w)
  | Call_GetOAuth2State s => snd (GetOAuth2State s w)
  | Call_Token ts => snd (Token ts w)
  end.

Definition after_all (cs : list Call) (w : World) : World :=
  fold_left (fun w c => after c w) cs w.

End Adapter.

End sqlite.

Module telegram.

(** *** Updates *)

(** Of the library's [tgbotapi.User], the field the loop reads. *)
Record User : Type := mkUser {
  LanguageCode : string
}.

(** A [tgbotapi.MessageEntity]: its type, and where it lies in the text. *)
Record MessageEntity : Type := mkMessageEntity {
  Type_ : string;
  Offset : Z;
  Length : Z
}.

(** A [tgbotapi.Message]: its sender, a pointer that is nil when the Bot API
    leaves the optional field out, its text and the entities of the text. *)
Record Message : Type := mkMessage {
  From : option User;
  Text : string;
  Entities : list MessageEntity
}.

(** Go's [s[low:high]] on the bytes of a string; [None] is the run-time
    panic for bounds out of range. *)
Definition slice (s : string) (low high : Z) : option string :=
  if (0 <=? low) && (low <=? high) && (high <=? Z.of_nat (String.length s))
  then Some (String.substring (Z.to_nat low) (Z.to_nat (high - low)) s)
  else None.

(** The library's [MessageEntity.IsCommand()] and [Message.IsCommand()]: the
    message starts with an entity of type bot_command. *)
Definition MessageEntity_IsCommand (e : MessageEntity) : bool :=
  String.eqb (Type_ e) "bot_command".

Definition IsCommand (m : Message) : bool :=
  match Entities m with
  | [] => false
  | entity :: _ => (Offset entity =? 0) && MessageEntity_IsCommand entity
  end.

(** The library's [Message.CommandWithAt()]: [m.Text[1:entity.Length]] for
    the first entity of a command, the empty string for another message. *)
Definition CommandWithAt (m : Message) : option string :=
  if negb (IsCommand m) then Some ""
  else match Entities m with
       | entity :: _ => slice (Text m) 1 (Length entity)
       | [] => None
       end.

(** The library's [Message.Command()]: the command up to its first at sign,
    [command[:i]] for [i] the [strings.Index] of the sign. *)
Definition Command (m : Message) : option string :=
  match CommandWithAt m with
  | Some command =>
      match String.index 0 "@" command with
      | Some i => slice command 0 (Z.of_nat i)
      | None => Some command
      end
  | None => None
  end.

(** The sender of a callback query and of an inline query is a field the Bot
    API requires. *)
Record CallbackQuery : Type := mkCallbackQuery {
  CallbackQuery_From : User;
  Data : string
}.

Record InlineQuery : Type := mkInlineQuery {
  InlineQuery_From : User;
  Query : string
}.

(** A [tgbotapi.Update]; each of the three fields is a pointer that may be
    nil, and the Bot API sets at most one of them in an update. *)
Record Update : Type := mkUpdate {
  UpdateID : Z;
  Message_ : option Message;
  CallbackQuery_ : option CallbackQuery;
  InlineQuery_ : option InlineQuery
}.

(** The library's [Update.CallbackData()]. *)
Definition CallbackData (u : Update) : string :=
  match CallbackQuery_ u with
  | Some q => Data q
  | None => ""
  end.

(** [strings.Split(s, sep)] for a separator of one byte: the pieces of [s]
    between the separators, in order; a string without separator is its own
    single piece. *)
Fixpoint strings_Split (s : string) (sep : ascii) : list string :=
  match s with
  | EmptyString => [EmptyString]
  | String c rest =>
      if Ascii.eqb c sep then EmptyString :: strings_Split rest sep
      else match strings_Split rest sep with
           | piece :: pieces => String c piece :: pieces
           | [] => [String c EmptyString]
           end
  end.

(** [i18n.NewLocalizer(bundle, langs...)]. *)
Record Localizer (Bundle : Type) : Type := NewLocalizer {
  Localizer_bundle : Bundle;
  Localizer_langs : list string
}.
Arguments NewLocalizer {Bundle} _ _.

(** The six handler methods of [delivery] that the loop calls; they are
    defined in other files of the package. *)
Inductive Handler : Type :=
| startCommand
| anyOtherCommand
| generateMaskedEmail
| enableMaskedEmail
| generateMaskedEmailWithInlineButton
| answerInlineQueryWithEmail.

Definition Handler_eq_dec (a b : Handler) : {a = b} + {a <> b}.
Proof. decide equality. Defined.

(** What the loop does that can be observed from outside: it calls a
    handler, and it writes an error to the logger. *)
Inductive Event (Bundle : Type) : Type :=
| Called (h : Handler) (localizer : Localizer Bundle) (update : Update)
| LoggedError (msg : string) (err : error).
Arguments Called {Bundle} h localizer update.
Arguments LoggedError {Bundle} msg err.

Section Delivery.

(** Whatever the handlers read and change (the service, the chat). *)
Variable St : Type.

(** [d.bundle]. *)
Variable Bundle : Type.
Variable d_bundle : Bundle.

(** The handler methods: each returns an error or nil. *)
Variable handler : Handler -> Localizer Bundle -> Update -> St -> option error * St.

Record World : Type := mkWorld {
  inner : St;
  events : list (Event Bundle)
}.

(** A computation of the loop; [None] is a run-time panic (a nil pointer
    dereferenced, an index or a slice out of range), which ends the loop and
    the process: nothing in the loop recovers from it. *)
Definition M (A : Type) : Type := World -> option (A * World).

Definition ret {A} (a : A) : M A := fun w => Some (a, w).

Definition bind {A B} (c : M A) (k : A -> M B) : M B :=
  fun w => match c w with
           | Some (a, w') => k a w'
           | None => None
           end.

Definition panic {A} : M A := fun _ => None.

Notation "x <- c ;; k" := (bind c (fun x => k))
  (at level 61, c at next level, right associativity).
Notation "c ;;; k" := (bind c (fun _ => k))
  (at level 61, right associativity).

Definition call (h : Handler) (localizer : Localizer Bundle) (update : Update)
  : M (option error) :=
  fun w => let (err, s) := handler h localizer update (inner w) in
           Some (err, mkWorld s (events w ++ [Called h localizer update])).

Definition logger_Error (msg : string) (err : error) : M unit :=
  fun w => Some (tt, mkWorld (inner w) (events w ++ [LoggedError msg err])).

(** [if err := d.h(localizer, update); err != nil { d.logger.Error(msg, ...) }] *)
Definition call_and_log (h : Handler) (localizer : Localizer Bundle)
    (update : Update) (msg : string) : M unit :=
  err <- call h localizer update ;;
  match err with
  | Some e => logger_Error msg e
  | None => ret tt
  end.

(** The body of the loop, for one update. *)
Definition serve (update : Update) : M unit :=
  match Message_ update with
  | Some message =>
      match From message with
      | None => panic
      | Some from =>
          let localizer := NewLocalizer d_bundle [LanguageCode from] in
          if IsCommand message then
            match Command message with
            | None => panic
            | Some command =>
                if String.eqb command "start"
                then call_and_log startCommand localizer update
                       "Error while handling command!"
                else call_and_log anyOtherCommand localizer update
                       "Error while handling command!"
            end
          else call_and_log generateMaskedEmail localizer update
                 "Error while handling a link!"
      end
  | None =>
      match CallbackQuery_ update with
      | Some query =>
          let localizer := NewLocalizer d_bundle [LanguageCode (CallbackQuery_From query)] in
          let data := strings_Split (CallbackData update) ":"%char in
          match data with
          | [] => panic
          | data0 :: _ =>
              if String.eqb data0 "id"
              then call_and_log enableMaskedEmail localizer update
                     "Error while enabling a masked email!"
              else if String.eqb data0 "prefix"
              then call_and_log generateMaskedEmailWithInlineButton localizer update
                     "Error while generating a masked email!"
              else ret tt
          end
      | None =>
          match InlineQuery_ update with
          | Some query =>
              let localizer := NewLocalizer d_bundle [LanguageCode (InlineQuery_From query)] in
              call_and_log answerInlineQueryWithEmail localizer update
                "Error while trying to answer inline query!"
          | None => ret tt
          end
      end
  end.

(** [ListenAndServe], on the updates the channel delivers before it is
    closed: the loop body for each, in order, then [return nil]. *)
Fixpoint ListenAndServe (updates : list Update) : M (option error) :=
  match updates with
  | [] => ret None
  | update :: rest => serve update ;;; ListenAndServe rest
  end.

(** The updates on which the loop body runs to its end: those without a
    message, and those whose message has a sender and, when it is a command,
    a first entity that [Command()] can cut out of the text. *)
Definition dispatchable (u : Update) : bool :=
  match Message_ u with
  | Some m =>
      match From m with
      | Some _ =>
          if IsCommand m
          then match Command m with
               | Some _ => true
               | None => false
               end
          else true
      | None => false
      end
  | None => true
  end.

(** *** The routing as the specification words it *)

(** The four classes of section 4.3: a command goes to the handler of its
    name, with a fallback for the names not recognised; other messages are
    candidate links; a callback action goes by its first colon-delimited
    segment, and is dropped when that is neither "id" nor "prefix"; an
    inline query goes to the inline answer.  An update of none of the
    classes has no handler. *)
Definition spec_discriminator (payload : string) : string :=
  hd "" (strings_Split payload ":"%char).

Definition spec_command (m : Message) : string :=
  match Command m with
  | Some command => command
  | None => ""
  end.

Definition spec_route (u : Update) : option Handler :=
  match Message_ u, CallbackQuery_ u, InlineQuery_ u with
  | Some m, _, _ =>
      if IsCommand m
      then if String.eqb (spec_command m) "start" then Some startCommand
           else Some anyOtherCommand
      else Some generateMaskedEmail
  | None, Some q, _ =>
      if String.eqb (spec_discriminator (Data q)) "id" then Some enableMaskedEmail
      else if String.eqb (spec_discriminator (Data q)) "prefix"
           then Some generateMaskedEmailWithInlineButton
           else None
  | None, None, Some _ => Some answerInlineQueryWithEmail
  | None, None, None => None
  end.

(** The language the update declares, from which its localizer is made. *)
Definition spec_language (u : Update) : string :=
  match Message_ u, CallbackQuery_ u, InlineQuery_ u with
  | Some m, _, _ =>
      match From m with
      | Some from => LanguageCode from
      | None => ""
      end
  | None, Some q, _ => LanguageCode (CallbackQuery_From q)
  | None, None, Some q => LanguageCode (InlineQuery_From q)
  | None, None, None => ""
  end.

Definition spec_localizer (u : Update) : Localizer Bundle :=
  NewLocalizer d_bundle [spec_language u].

(** The message logged when a handler fails. *)
Definition spec_message (h : Handler) : string :=
  match h with
  | startCommand | anyOtherCommand => "Error while handling command!"
  | generateMaskedEmail => "Error while handling a link!"
  | enableMaskedEmail => "Error while enabling a masked email!"
  | generateMaskedEmailWithInlineButton => "Error while generating a masked email!"
  | answerInlineQueryWithEmail => "Error while trying to answer inline query!"
  end.

(** What one update adds to the events, and the state it leaves, when the
    update is routed as specified. *)
Definition spec_step (u : Update) (w : World) : World :=
  match spec_route u with
  | None => w
  | Some h =>
      let (err, s) := handler h (spec_localizer u) u (inner w) in
      mkWorld s (events w ++ Called h (spec_localizer u) u ::
                   match err with
                   | Some e => [LoggedError (spec_message h) e]
                   | None => []
                   end)
  end.

(** The handler calls among some events, in order. *)
Definition calls (evs : list (Event Bundle)) : list (Handler * Update) :=
  flat_map (fun ev => match ev with
                      | Called h _ u => [(h, u)]
                      | LoggedError _ _ => []
                      end) evs.

(** The updates that have a handler, each with it. *)
Definition spec_routed (updates : list Update) : list (Handler * Update) :=
  flat_map (fun u => match spec_route u with
                     | Some h => [(h, u)]
                     | None => []
                     end) updates.

(** The errors logged among some events, in order. *)
Definition errors_logged (evs : list (Event Bundle)) : list (string * error) :=
  flat_map (fun ev => match ev with
                      | Called _ _ _ => []
                      | LoggedError msg e => [(msg, e)]
                      end) evs.

End Delivery.

Arguments mkWorld {St Bundle} inner events.
Arguments inner {St Bundle} w.
Arguments events {St Bundle} w.
Arguments call_and_log {St Bundle} handler h localizer update msg _.
Arguments serve {St Bundle} d_bundle handler update _.
Arguments ListenAndServe {St Bundle} d_bundle handler updates _.
Arguments spec_localizer {Bundle} d_bundle u.
Arguments spec_step {St Bundle} d_bundle handler u w.
Arguments errors_logged {Bundle} evs.
Arguments calls {Bundle} evs.

End telegram.

(** ** Sample environments

    Concrete drivers, codecs, token sources and handlers on which the
    statements below are instantiated. *)
Module Sample.

Definition fresh : OAuth2Token := mkToken "access-1" "Bearer" "refresh-1" 0.
Definition renewed : OAuth2Token := mkToken "access-2" "Bearer" "refresh-2" 0.
Definition stale : OAuth2Token := mkToken "access-0" "Bearer" "refresh-0" 5.

(** With [now] below: a token good for an hour more, one that expires in
    five seconds, and one without access token. *)
Definition lasting : OAuth2Token :=
  mkToken "access-3" "Bearer" "refresh-3" 4600000000000.
Definition closing : OAuth2Token :=
  mkToken "access-4" "Bearer" "refresh-4" 1005000000000.
Definition nameless : OAuth2Token := mkToken "" "Bearer" "refresh-5" 0.

(** A codec on three known tokens, in the manner of [encoding/json]. *)
Definition unmarshal (s : string) : res (option OAuth2Token) :=
  if String.eqb s "null" then ok None
  else if String.eqb s "{access-1}" then ok (Some fresh)
  else if String.eqb s "{access-2}" then ok (Some renewed)
  else if String.eqb s "{access-0}" then ok (Some stale)
  else if String.eqb s "{access-3}" then ok (Some lasting)
  else if String.eqb s "{access-4}" then ok (Some closing)
  else if String.eqb s "{}" then ok (Some nameless)
  else fail (errors_New "invalid character").

Definition marshal (t : option OAuth2Token) : res string :=
  match t with
  | None => ok "null"
  | Some t => ok ("{" ++ AccessToken t ++ "}")%string
  end.

(** A driver that runs every statement, and one that fails the statement
    numbered [k] with an I/O error (SQLITE_IOERR). *)
Definition healthy : nat -> option error := fun _ => None.

Definition failing_at (k : nat) : nat -> option error :=
  fun n => if Nat.eqb n k then Some (sqlite3_Error 10 10) else None.

(** A wrapped token source that always hands out [renewed]. *)
Definition renewing : sqlite.TokenSource := fun _ => ok (Some renewed).

Definition now : Time := 1000000000000.

(** The token source of user 42 over [renewing]. *)
Definition source : sqlite.tokenSource := sqlite.NewTokenSource renewing 42.

Definition empty : sqlite.World := sqlite.mkWorld [] [] [] [] 0.

Definition with_user (blob : option string) : sqlite.World :=
  sqlite.mkWorld [sqlite.mkUserRow 42 blob "en"] [] [] [] 0.

(** Handlers that count their calls; enabling a masked email fails. *)
Definition counting (h : telegram.Handler) (_ : telegram.Localizer unit)
    (_ : telegram.Update) (n : nat) : option error * nat :=
  match h with
  | telegram.enableMaskedEmail => (Some (errors_New "upstream failure"), S n)
  | _ => (None, S n)
  end.

Definition callback (payload : string) : telegram.Update :=
  telegram.mkUpdate 1 None
    (Some (telegram.mkCallbackQuery (telegram.mkUser "en") payload)) None.

Definition blank : telegram.Update := telegram.mkUpdate 2 None None None.

Definition start : telegram.World nat unit := telegram.mkWorld 0%nat [].

(** Handlers that always succeed. *)
Definition quiet (_ : telegram.Handler) (_ : telegram.Localizer unit)
    (_ : telegram.Update) (n : nat) : option error * nat :=
  (None, S n).

(** A message that is a command, a message that is not, an inline query. *)
Definition command (name : string) : telegram.Update :=
  telegram.mkUpdate 3
    (Some (telegram.mkMessage (Some (telegram.mkUser "de")) ("/" ++ name)
             [telegram.mkMessageEntity "bot_command" 0
                (Z.of_nat (String.length ("/" ++ name)))]))
    None None.

Definition text (t : string) : telegram.Update :=
  telegram.mkUpdate 4
    (Some (telegram.mkMessage (Some (telegram.mkUser "de")) t []))
    None None.

(** A message without sender. *)
Definition anonymous (t : string) : telegram.Update :=
  telegram.mkUpdate 6 (Some (telegram.mkMessage None t [])) None None.

(** A command addressed to the bot by name, with an argument. *)
Definition addressed : telegram.Update :=
  telegram.mkUpdate 8
    (Some (telegram.mkMessage (Some (telegram.mkUser "de"))
             "/start@MaskedEmailBot now"
             [telegram.mkMessageEntity "bot_command" 0 21]))
    None None.


Definition inline (q : string) : telegram.Update :=
  telegram.mkUpdate 5 None None
    (Some (telegram.mkInlineQuery (telegram.mkUser "fr") q)).

(** A wrapped token source that always fails, and a codec that cannot
    serialise. *)
Definition unreachable : sqlite.TokenSource :=
  fun _ => fail (errors_New "oauth2: cannot fetch token").

Definition unserialisable (_ : option OAuth2Token) : res string :=
  fail (errors_New "json: error calling MarshalJSON").

(** Two registered users, each with a token. *)
Definition two_users : sqlite.World :=
  sqlite.mkWorld
    [sqlite.mkUserRow 42 (Some "{access-0}") "en";
     sqlite.mkUserRow 43 (Some "{access-1}") "fr"] [] [] [] 0.

(** A pending authorization. *)
Definition with_state : sqlite.World :=
  sqlite.mkWorld [] [sqlite.mkStateRow "nonce" "verifier" 42] [] [] 0.

End Sample.

(** ** The storage adapter and the token source *)

Section AdapterFacts.

Import sqlite.

Variable driver_fault : nat -> option error.
Variable json_Marshal : option OAuth2Token -> res string.
Variable json_Unmarshal : string -> res (option OAuth2Token).
Variable timeNow : Time.

Local Abbreviation GetUser := (sqlite.GetUser driver_fault json_Unmarshal).
Local Abbreviation UpdateToken := (sqlite.UpdateToken driver_fault).
Local Abbreviation CreateUser := (sqlite.CreateUser driver_fault).
Local Abbreviation CreateOAuth2State := (sqlite.CreateOAuth2State driver_fault).
Local Abbreviation GetOAuth2State := (sqlite.GetOAuth2State driver_fault).
Local Abbreviation Token :=
  (sqlite.Token driver_fault json_Marshal json_Unmarshal timeNow).

Ltac run_adapter :=
  unfold sqlite.GetUser, sqlite.UpdateToken, sqlite.CreateUser,
    sqlite.CreateOAuth2State, sqlite.GetOAuth2State, sqlite.UpdateLanguageCode,
    sqlite.QueryRow_Scan_users, sqlite.QueryRow_Scan_oauth2_states,
    sqlite.db_Exec, sqlite.receive, sqlite.run, sqlite.logger,
    sqlite.set_users, sqlite.set_oauth2_states, sqlite.TokenSource_Token,
    sqlite.bind, sqlite.ret.

(** Whatever it returns, [GetUser] sends one SELECT and changes neither
    table nor calls the wrapped token source. *)
Lemma GetUser_frame id w :
  let w1 := snd (GetUser id w) in
  users w1 = users w /\
  oauth2_states w1 = oauth2_states w /\
  executed w1 = executed w ++ [SELECT_users id] /\
  refreshes w1 = refreshes w.
Proof.
  run_adapter; cbn.
  destruct (driver_fault _) as [e|]; cbn.
  - destruct (errors_Is e sqlite3_ErrNotFound); cbn; auto.
  - destruct (find _ _) as [row|]; cbn; auto.
    destruct (fastmail_token row) as [blob|]; cbn; auto.
    destruct (json_Unmarshal blob); cbn; auto.
Qed.

(** A user that [GetUser] returns is a row of the table, its credential the
    decoded column. *)
Lemma GetUser_ok_inv id w user w1 :
  GetUser id w = (ok user, w1) ->
  exists row,
    find (fun r => telegram_id r =? id) (users w) = Some row /\
    TelegramID user = telegram_id row /\
    LanguageCode user = lang row /\
    match fastmail_token row with
    | Some blob => json_Unmarshal blob = ok (FastmailToken user)
    | None => FastmailToken user = None
    end.
Proof.
  run_adapter; cbn.
  destruct (driver_fault _) as [e|]; cbn.
  - destruct (errors_Is e sqlite3_ErrNotFound); cbn; discriminate.
  - destruct (find _ _) as [row|]; cbn; [|discriminate].
    intros H. exists row. split; [reflexivity|].
    destruct (fastmail_token row) as [blob|]; cbn in *.
    + destruct (json_Unmarshal blob) as [t|e]; cbn in *; [|discriminate].
      injection H as <- _. cbn. auto.
    + injection H as <- _. cbn. auto.
Qed.

(** The row found, the driver willing and the column decodable, [GetUser]
    returns the user. *)
Lemma GetUser_found id w row t :
  driver_fault (List.length (executed w)) = None ->
  find (fun r => telegram_id r =? id) (users w) = Some row ->
  match fastmail_token row with
  | Some blob => json_Unmarshal blob = ok t
  | None => t = None
  end ->
  fst (GetUser id w) = ok (mkUser (telegram_id row) t (lang row)).
Proof.
  intros Hf Hrow Hdec. run_adapter; cbn. rewrite Hf; cbn. rewrite Hrow; cbn.
  destruct (fastmail_token row) as [blob|]; cbn.
  - rewrite Hdec. reflexivity.
  - subst t. reflexivity.
Qed.

(** Every failure of [GetUser] is one of the two domain errors. *)
Lemma GetUser_fail_inv id w e w1 :
  GetUser id w = (fail e, w1) ->
  e = domain_error ErrNoUser \/ e = domain_error ErrSqliteInternal.
Proof.
  run_adapter; cbn.
  destruct (driver_fault _) as [e0|]; cbn.
  - destruct (errors_Is e0 sqlite3_ErrNotFound); cbn; intros [= <- _]; auto.
  - destruct (find _ _) as [row|]; cbn; [|intros [= <- _]; auto].
    destruct (fastmail_token row) as [blob|]; cbn; [|discriminate].
    destruct (json_Unmarshal blob); cbn; [discriminate|intros [= <- _]; auto].
Qed.

(** [UpdateToken] sends one UPDATE; it fails exactly when the driver does,
    with [ErrSqliteInternal], the table as it was. *)
Lemma UpdateToken_frame id b w :
  let (err, w1) := UpdateToken id b w in
  executed w1 = executed w ++ [UPDATE_users_fastmail_token b id] /\
  refreshes w1 = refreshes w /\
  oauth2_states w1 = oauth2_states w /\
  match driver_fault (List.length (executed w)) with
  | Some _ =>
      err = Some (domain_error ErrSqliteInternal) /\ users w1 = users w
  | None =>
      err = None /\
      users w1 =
        map (fun r => if telegram_id r =? id
                      then mkUserRow (telegram_id r) (Some b) (lang r)
                      else r) (users w)
  end.
Proof.
  run_adapter; cbn.
  destruct (driver_fault _) as [e|]; cbn; auto.
Qed.

(** C1, amended. When the credential stored for the user is present, has
    an access token and either has no expiry or expires no sooner than ten
    seconds from now (the margin [expiryDelta] of the oauth2 library),
    [Token] returns that credential, and the world it leaves is the one
    [GetUser] left: the wrapped token source has not been called, both tables
    are as they were, and the only statement sent is the SELECT of [GetUser]
    (no UPDATE). *)
Theorem Token_returns_valid_stored_credential ts w user w1 t :
  GetUser (telegramID ts) w = (ok user, w1) ->
  FastmailToken user = Some t ->
  AccessToken t <> "" ->
  Expiry t = 0 \/ timeNow <= Expiry t - expiryDelta ->
  Token ts w = (ok (Some t), w1) /\
  refreshes w1 = refreshes w /\
  users w1 = users w /\
  oauth2_states w1 = oauth2_states w /\
  executed w1 = executed w ++ [SELECT_users (telegramID ts)].
Proof.
  intros Hget Hstored Haccess Hexpiry.
  assert (Hvalid : Token_Valid timeNow (FastmailToken user) = true).
  { rewrite Hstored. unfold Token_Valid, Token_expired.
    apply String.eqb_neq in Haccess. rewrite Haccess. cbn.
    destruct (Expiry t =? 0) eqn:Hzero; [reflexivity|].
    destruct Hexpiry as [H0|Hlater].
    - apply Z.eqb_neq in Hzero. contradiction.
    - apply negb_true_iff, Z.ltb_ge. exact Hlater. }
  pose proof (GetUser_frame (telegramID ts) w) as Hframe.
  rewrite Hget in Hframe; cbn in Hframe.
  destruct Hframe as (Hu & Hs & He & Hr).
  split; [|auto].
  unfold sqlite.Token, sqlite.bind at 1. rewrite Hget, Hvalid, Hstored.
  reflexivity.
Qed.

(** C2. When the credential stored for the user is not valid (absent, or
    expired), [Token] calls the wrapped token source exactly once; and when
    that call answers a token, the token serialises and the driver runs the
    UPDATE, [Token] returns the refreshed token having sent, after the SELECT
    of [GetUser], exactly one UPDATE, which carries the serialised token and
    puts it in the user's row. *)
Theorem Token_refreshes_invalid_stored_credential ts w user w1 :
  GetUser (telegramID ts) w = (ok user, w1) ->
  Token_Valid timeNow (FastmailToken user) = false ->
  refreshes (snd (Token ts w)) = S (refreshes w) /\
  forall token b,
    baseTokenSource ts (refreshes w) = ok token ->
    json_Marshal token = ok b ->
    driver_fault (S (List.length (executed w))) = None ->
    fst (Token ts w) = ok token /\
    executed (snd (Token ts w)) =
      executed w ++ [SELECT_users (telegramID ts);
                     UPDATE_users_fastmail_token b (telegramID ts)] /\
    users (snd (Token ts w)) =
      map (fun r => if telegram_id r =? telegramID ts
                    then mkUserRow (telegram_id r) (Some b) (lang r)
                    else r) (users w).
Proof.
  intros Hget Hvalid.
  pose proof (GetUser_frame (telegramID ts) w) as Hframe.
  rewrite Hget in Hframe; cbn in Hframe.
  destruct Hframe as (Hu & Hs & He & Hr).
  remember (Token ts w) as T eqn:HT.
  unfold sqlite.Token, sqlite.bind at 1 in HT. rewrite Hget, Hvalid in HT.
  unfold sqlite.bind at 1, sqlite.TokenSource_Token in HT. rewrite Hr in HT.
  pose proof (UpdateToken_frame (telegramID ts)) as Hupd.
  destruct (baseTokenSource ts (refreshes w)) as [token|e] eqn:Hb.
  2:{ subst T; cbn. split; [reflexivity|discriminate]. }
  destruct (json_Marshal token) as [b|e] eqn:Hm.
  2:{ subst T; cbn. split; [reflexivity|]. intros ? ? [= <-]. congruence. }
  unfold sqlite.bind at 1 in HT.
  match type of HT with
  | context [UpdateToken _ _ ?w2] =>
      specialize (Hupd b w2); destruct (UpdateToken _ b w2) as [err w3]
  end.
  cbn in Hupd. destruct Hupd as (Hex & Hre & _ & Hcase).
  rewrite He, length_app, Nat.add_comm in Hcase; cbn in Hcase.
  split.
  - destruct err; subst T; cbn; exact Hre.
  - intros token' b' [= <-] Hm' Hdrv. rewrite Hm in Hm'. injection Hm' as <-.
    rewrite Hdrv in Hcase.
    destruct Hcase as [-> Hrows]. subst T; cbn.
    rewrite Hex, He, <- app_assoc, Hrows, Hu. auto.
Qed.

(** C3. When the wrapped token source answers a token but [UpdateToken]
    then fails, [Token] returns a failure (the adapter's
    [ErrSqliteInternal]), so no token at all, and the user's row keeps what it
    had. *)
Theorem Token_fails_when_persistence_fails ts w user w1 token b w2 e w3 :
  GetUser (telegramID ts) w = (ok user, w1) ->
  Token_Valid timeNow (FastmailToken user) = false ->
  sqlite.TokenSource_Token (baseTokenSource ts) w1 = (ok token, w2) ->
  json_Marshal token = ok b ->
  UpdateToken (telegramID ts) b w2 = (Some e, w3) ->
  Token ts w = (fail e, w3) /\
  (forall t, fst (Token ts w) <> ok t) /\
  e = domain_error ErrSqliteInternal /\
  users w3 = users w.
Proof.
  intros Hget Hvalid Hbase Hmar Hupd.
  assert (HT : Token ts w = (fail e, w3)).
  { unfold sqlite.Token, sqlite.bind at 1. rewrite Hget, Hvalid.
    unfold sqlite.bind at 1. rewrite Hbase, Hmar.
    unfold sqlite.bind at 1. rewrite Hupd. reflexivity. }
  split; [exact HT|]. split; [rewrite HT; cbn; discriminate|].
  pose proof (GetUser_frame (telegramID ts) w) as Hframe.
  rewrite Hget in Hframe; cbn in Hframe.
  destruct Hframe as (Hu & _).
  pose proof (UpdateToken_frame (telegramID ts) b w2) as Hframe.
  rewrite Hupd in Hframe.
  destruct Hframe as (_ & _ & _ & Hcase).
  assert (Hw2 : users w2 = users w1).
  { unfold sqlite.TokenSource_Token in Hbase. injection Hbase as _ <-. reflexivity. }
  destruct (driver_fault _).
  - destruct Hcase as [He Hrows]. split; [congruence|].
    rewrite Hrows, Hw2, Hu. reflexivity.
  - destruct Hcase as [He _]. discriminate.
Qed.

(** C4. When [GetUser] fails, [Token] returns the very same error and
    leaves the world of [GetUser]: the wrapped token source has not been
    called, both tables are as they were and no UPDATE has been sent. *)
Theorem Token_propagates_GetUser_failure ts w e w1 :
  GetUser (telegramID ts) w = (fail e, w1) ->
  Token ts w = (fail e, w1) /\
  refreshes w1 = refreshes w /\
  users w1 = users w /\
  oauth2_states w1 = oauth2_states w /\
  executed w1 = executed w ++ [SELECT_users (telegramID ts)].
Proof.
  intros Hget.
  pose proof (GetUser_frame (telegramID ts) w) as Hframe.
  rewrite Hget in Hframe; cbn in Hframe.
  destruct Hframe as (Hu & Hs & He & Hr).
  split; [|auto].
  unfold sqlite.Token, sqlite.bind at 1. rewrite Hget. reflexivity.
Qed.

(** *** One row per identity *)

Lemma has_user_false_users_with id rows :
  has_user id rows = false -> users_with id rows = [].
Proof.
  unfold has_user, users_with.
  induction rows as [|r rows IH]; cbn; [reflexivity|].
  destruct (telegram_id r =? id); cbn; [discriminate|exact IH].
Qed.

Lemma has_user_In id rows :
  has_user id rows = true <-> In id (map telegram_id rows).
Proof.
  unfold has_user. rewrite existsb_exists, in_map_iff.
  split; intros (r & H1 & H2); exists r.
  - apply Z.eqb_eq in H2. auto.
  - split; [assumption|]. apply Z.eqb_eq. assumption.
Qed.

Lemma has_user_true_users_with id rows :
  NoDup (map telegram_id rows) ->
  has_user id rows = true ->
  List.length (users_with id rows) = 1%nat.
Proof.
  induction rows as [|r rows IH]; cbn; [discriminate|].
  intros Hnd Hhas. inversion Hnd as [|k ks Hnotin Hnd']; subst.
  unfold users_with in *; cbn.
  destruct (telegram_id r =? id) eqn:Hk; cbn in *.
  - apply Z.eqb_eq in Hk. subst id.
    destruct (has_user (telegram_id r) rows) eqn:Hrest.
    + apply has_user_In in Hrest. contradiction.
    + apply has_user_false_users_with in Hrest.
      unfold users_with in Hrest. rewrite Hrest. reflexivity.
  - apply IH; assumption.
Qed.

Lemma NoDup_keys_snoc id blob l rows :
  NoDup (map telegram_id rows) ->
  has_user id rows = false ->
  NoDup (map telegram_id (rows ++ [mkUserRow id blob l])).
Proof.
  intros Hnd Hhas. rewrite map_app; cbn.
  apply NoDup_app.
  - assumption.
  - constructor; [intros []|constructor].
  - intros k Hin [<-|[]]. apply has_user_In in Hin. congruence.
Qed.

(** What [CreateUser] does when the driver runs the INSERT. *)
Lemma CreateUser_runs id l w :
  driver_fault (List.length (executed w)) = None ->
  CreateUser id l w =
    if has_user id (users w)
    then (Some (domain_error ErrSqliteUserAlreadyExists),
          mkWorld (users w) (oauth2_states w)
            (executed w ++ [INSERT_users id l])
            (logged w ++
               [(InfoLevel, "Duplicate key value violation!",
                 sqlite3_Error SQLITE_CONSTRAINT SQLITE_CONSTRAINT_PRIMARYKEY)])
            (refreshes w))
    else (None,
          mkWorld (users w ++ [mkUserRow id None l])
            (oauth2_states w)
            (executed w ++ [INSERT_users id l])
            (logged w) (refreshes w)).
Proof.
  intros Hf. run_adapter. rewrite Hf. cbn -[has_user].
  destruct (has_user id (users w)); reflexivity.
Qed.

(** C7. On a table with one row per identity and a driver that runs both
    statements, two calls of [CreateUser] for an identity leave exactly one
    row of that identity; the second call fails with
    [ErrSqliteUserAlreadyExists], which is not [ErrSqliteInternal]; the
    first succeeds when the identity was not there.  And whenever the driver
    fails the INSERT with an error that is not a [sqlite3.Error] of extended
    code 1555, [CreateUser] fails with [ErrSqliteInternal]. *)
Theorem CreateUser_twice_one_row id lang1 lang2 w :
  (NoDup (map telegram_id (users w)) ->
   driver_fault (List.length (executed w)) = None ->
   driver_fault (S (List.length (executed w))) = None ->
   let (err1, w1) := CreateUser id lang1 w in
   let (err2, w2) := CreateUser id lang2 w1 in
   List.length (users_with id (users w2)) = 1%nat /\
   NoDup (map telegram_id (users w2)) /\
   err2 = Some (domain_error ErrSqliteUserAlreadyExists) /\
   err2 <> Some (domain_error ErrSqliteInternal) /\
   (has_user id (users w) = false -> err1 = None)) /\
  (forall e,
     driver_fault (List.length (executed w)) = Some e ->
     (forall sqliteErr,
        errors_As_Sqlite3Error (Some e) = Some sqliteErr ->
        ExtendedCode sqliteErr <> 1555) ->
     fst (CreateUser id lang1 w) = Some (domain_error ErrSqliteInternal) /\
     users (snd (CreateUser id lang1 w)) = users w).
Proof.
  split.
  - intros Hnd Hf1 Hf2. rewrite (CreateUser_runs id lang1 w Hf1).
    destruct (has_user id (users w)) eqn:Hhas.
    + rewrite CreateUser_runs; cbn [executed users].
      2:{ rewrite length_app, Nat.add_comm. exact Hf2. }
      rewrite Hhas; cbn [users].
      repeat split; try assumption; try discriminate.
      apply has_user_true_users_with; assumption.
    + rewrite CreateUser_runs; cbn [executed users].
      2:{ rewrite length_app, Nat.add_comm. exact Hf2. }
      assert (Hnow : has_user id
                (users w ++ [mkUserRow id None lang1]) = true).
      { unfold has_user. rewrite existsb_app; cbn.
        rewrite Z.eqb_refl, orb_true_r. reflexivity. }
      rewrite Hnow; cbn [users].
      repeat split; try discriminate.
      * unfold users_with. rewrite filter_app; cbn. rewrite Z.eqb_refl.
        apply has_user_false_users_with in Hhas. unfold users_with in Hhas.
        rewrite Hhas. reflexivity.
      * apply NoDup_keys_snoc; assumption.
  - intros e Hf Hother. run_adapter; cbn. rewrite Hf; cbn.
    cbn in Hother.
    destruct (chain_As_Sqlite3Error e) as [sqliteErr|] eqn:Has; cbn.
    + specialize (Hother sqliteErr eq_refl).
      apply Z.eqb_neq in Hother. rewrite Hother; cbn. auto.
    + auto.
Qed.

(** *** Looking up what is not there *)

(** C6. When the driver runs the SELECT and no row of [users] has the
    identity, [GetUser] fails with [ErrSqliteInternal], not [ErrNoUser]:
    [Scan] reports [sql.ErrNoRows], which is not the driver's
    [sqlite3.ErrNotFound] that the adapter tests for; the miss is also logged
    as an error. *)
Theorem GetUser_missing_row_reports_Internal id w :
  driver_fault (List.length (executed w)) = None ->
  find (fun r => telegram_id r =? id) (users w) = None ->
  fst (GetUser id w) = fail (domain_error ErrSqliteInternal) /\
  fst (GetUser id w) <> fail (domain_error ErrNoUser) /\
  logged (snd (GetUser id w)) =
    logged w ++ [(ErrorLevel, "Error while getting a user!", sql_ErrNoRows)].
Proof.
  intros Hf Hnone. run_adapter; cbn. rewrite Hf; cbn. rewrite Hnone; cbn.
  repeat split. discriminate.
Qed.

(** C5. When the driver runs the SELECT and no row of [oauth2_states] has
    the nonce, [GetOAuth2State] fails with [ErrSqliteInternal], not
    [ErrNoState], for the same reason as [GetUser]. *)
Theorem GetOAuth2State_unknown_nonce_reports_Internal s w :
  driver_fault (List.length (executed w)) = None ->
  find (fun r => String.eqb (state r) s) (oauth2_states w) = None ->
  fst (GetOAuth2State s w) = fail (domain_error ErrSqliteInternal) /\
  fst (GetOAuth2State s w) <> fail (domain_error ErrNoState).
Proof.
  intros Hf Hnone. run_adapter; cbn. rewrite Hf; cbn. rewrite Hnone; cbn.
  split; [reflexivity|discriminate].
Qed.

(** The adapter answers [ErrNoUser] only when the driver itself fails the
    SELECT with an error whose chain holds [sqlite3.ErrNotFound]. *)
Lemma GetUser_ErrNoUser_inv id w :
  fst (GetUser id w) = fail (domain_error ErrNoUser) ->
  exists e, driver_fault (List.length (executed w)) = Some e /\
            errors_Is e sqlite3_ErrNotFound = true.
Proof.
  run_adapter; cbn.
  destruct (driver_fault _) as [e|]; cbn.
  - destruct (errors_Is e sqlite3_ErrNotFound) eqn:His; cbn; [eauto|discriminate].
  - destruct (find _ _) as [row|]; cbn; [|discriminate].
    destruct (fastmail_token row) as [blob|]; cbn; [|discriminate].
    destruct (json_Unmarshal blob); cbn; discriminate.
Qed.

Lemma find_state_snoc s v id rows :
  has_state s rows = false ->
  find (fun r => String.eqb (state r) s) (rows ++ [mkStateRow s v id])
  = Some (mkStateRow s v id).
Proof.
  unfold has_state.
  induction rows as [|r rows IH]; cbn.
  - rewrite String.eqb_refl. reflexivity.
  - destruct (String.eqb (state r) s); cbn; [discriminate|exact IH].
Qed.

(** A state that [CreateOAuth2State] stored is read back by
    [GetOAuth2State] with the verifier and the identity it was stored with. *)
Lemma CreateOAuth2State_GetOAuth2State s v id w w1 :
  CreateOAuth2State s v id w = (None, w1) ->
  driver_fault (List.length (executed w1)) = None ->
  fst (GetOAuth2State s w1) = ok (mkOAuth2State s v id).
Proof.
  intros Hcreate Hf.
  assert (Hw1 : has_state s (oauth2_states w) = false /\
                oauth2_states w1 =
                  oauth2_states w ++ [mkStateRow s v id]).
  { revert Hcreate. run_adapter.
    destruct (driver_fault (List.length (executed w))) as [e|];
      cbn -[has_state]; [discriminate|].
    destruct (has_state s (oauth2_states w)); cbn; [discriminate|].
    intros [= <-]. cbn. auto. }
  destruct Hw1 as [Hhas Hrows].
  run_adapter. rewrite Hf; cbn. rewrite Hrows, (find_state_snoc s v id _ Hhas).
  reflexivity.
Qed.

(** *** Rows and keys *)

Local Abbreviation UpdateLanguageCode := (sqlite.UpdateLanguageCode driver_fault).
Local Abbreviation after :=
  (sqlite.after driver_fault json_Marshal json_Unmarshal timeNow).
Local Abbreviation after_all :=
  (sqlite.after_all driver_fault json_Marshal json_Unmarshal timeNow).

Lemma find_snoc {A} (f : A -> bool) rows x :
  find f (rows ++ [x]) =
    match find f rows with
    | Some y => Some y
    | None => if f x then Some x else None
    end.
Proof.
  induction rows as [|r rows IH]; cbn; [reflexivity|].
  destruct (f r); [reflexivity|exact IH].
Qed.

Lemma has_user_find id rows :
  has_user id rows =
    match find (fun r => telegram_id r =? id) rows with
    | Some _ => true
    | None => false
    end.
Proof.
  unfold has_user. induction rows as [|r rows IH]; cbn; [reflexivity|].
  destruct (telegram_id r =? id); [reflexivity|exact IH].
Qed.

Lemma has_state_find s rows :
  has_state s rows =
    match find (fun r => String.eqb (state r) s) rows with
    | Some _ => true
    | None => false
    end.
Proof.
  unfold has_state. induction rows as [|r rows IH]; cbn; [reflexivity|].
  destruct (String.eqb (state r) s); [reflexivity|exact IH].
Qed.

(** Rewriting the rows of one identity, the key kept, moves no row. *)
Lemma find_rewritten id id' (g : UserRow -> UserRow) rows :
  (forall r, telegram_id (g r) = telegram_id r) ->
  find (fun r => telegram_id r =? id')
    (map (fun r => if telegram_id r =? id then g r else r) rows) =
  option_map (fun r => if telegram_id r =? id then g r else r)
    (find (fun r => telegram_id r =? id') rows).
Proof.
  intros Hkey. induction rows as [|r rows IH]; cbn; [reflexivity|].
  assert (Hsame : telegram_id (if telegram_id r =? id then g r else r) = telegram_id r).
  { destruct (telegram_id r =? id); [apply Hkey|reflexivity]. }
  rewrite Hsame. destruct (telegram_id r =? id'); [reflexivity|exact IH].
Qed.

Lemma map_rewritten_keys id (g : UserRow -> UserRow) rows :
  (forall r, telegram_id (g r) = telegram_id r) ->
  map telegram_id (map (fun r => if telegram_id r =? id then g r else r) rows) =
  map telegram_id rows.
Proof.
  intros Hkey. rewrite map_map. apply map_ext. intros r.
  destruct (telegram_id r =? id); [apply Hkey|reflexivity].
Qed.

Lemma map_rewritten_absent id (g : UserRow -> UserRow) rows :
  has_user id rows = false ->
  map (fun r => if telegram_id r =? id then g r else r) rows = rows.
Proof.
  unfold has_user. induction rows as [|r rows IH]; cbn; [reflexivity|].
  destruct (telegram_id r =? id); cbn; [discriminate|].
  intros H. rewrite IH by assumption. reflexivity.
Qed.

(** *** What each method does to the world *)

Lemma UpdateLanguageCode_frame id l w :
  let (err, w1) := UpdateLanguageCode id l w in
  executed w1 = executed w ++ [UPDATE_users_lang l id] /\
  refreshes w1 = refreshes w /\
  oauth2_states w1 = oauth2_states w /\
  match driver_fault (List.length (executed w)) with
  | Some _ =>
      err = Some (domain_error ErrSqliteInternal) /\ users w1 = users w
  | None =>
      err = None /\
      users w1 =
        map (fun r => if telegram_id r =? id
                      then mkUserRow (telegram_id r) (fastmail_token r) l
                      else r) (users w)
  end.
Proof.
  run_adapter; cbn.
  destruct (driver_fault _) as [e|]; cbn; auto.
Qed.

Lemma CreateUser_frame id l w :
  let (err, w1) := CreateUser id l w in
  executed w1 = executed w ++ [INSERT_users id l] /\
  refreshes w1 = refreshes w /\
  oauth2_states w1 = oauth2_states w /\
  ((users w1 = users w /\
    (err = Some (domain_error ErrSqliteUserAlreadyExists) \/
     err = Some (domain_error ErrSqliteInternal))) \/
   (has_user id (users w) = false /\ err = None /\
    users w1 = users w ++ [mkUserRow id None l])).
Proof.
  destruct (driver_fault (List.length (executed w))) as [e|] eqn:Hf.
  - run_adapter; cbn. rewrite Hf; cbn.
    destruct (chain_As_Sqlite3Error e) as [sqliteErr|]; cbn;
      [destruct (ExtendedCode sqliteErr =? 1555)|]; cbn; auto 7.
  - rewrite (CreateUser_runs id l w Hf).
    destruct (has_user id (users w)); cbn; auto 7.
Qed.

Lemma CreateOAuth2State_frame s v id w :
  let (err, w1) := CreateOAuth2State s v id w in
  executed w1 = executed w ++ [INSERT_oauth2_states s v id] /\
  refreshes w1 = refreshes w /\
  users w1 = users w /\
  ((oauth2_states w1 = oauth2_states w /\
    err = Some (domain_error ErrSqliteInternal) /\
    (driver_fault (List.length (executed w)) = None ->
     has_state s (oauth2_states w) = true)) \/
   (has_state s (oauth2_states w) = false /\ err = None /\
    driver_fault (List.length (executed w)) = None /\
    oauth2_states w1 = oauth2_states w ++ [mkStateRow s v id])).
Proof.
  run_adapter.
  destruct (driver_fault (List.length (executed w))) as [e|];
    cbn -[has_state].
  - repeat (split; [reflexivity|]). left. repeat split. discriminate.
  - destruct (has_state s (oauth2_states w)); cbn;
      repeat (split; [reflexivity|]); auto 8.
Qed.

Lemma GetOAuth2State_frame s w :
  let w1 := snd (GetOAuth2State s w) in
  users w1 = users w /\
  oauth2_states w1 = oauth2_states w /\
  executed w1 = executed w ++ [SELECT_oauth2_states s] /\
  refreshes w1 = refreshes w.
Proof.
  run_adapter; cbn.
  destruct (driver_fault _) as [e|]; cbn.
  - destruct (errors_Is e sqlite3_ErrNotFound); cbn; auto.
  - destruct (find _ _) as [row|]; cbn; auto.
Qed.

(** The five ways a call of [Token] can go. *)
Lemma Token_cases ts w :
  let r := fst (Token ts w) in
  let w' := snd (Token ts w) in
  let sent := executed w ++ [SELECT_users (telegramID ts)] in
  oauth2_states w' = oauth2_states w /\
  ((exists e,
      fst (GetUser (telegramID ts) w) = fail e /\ r = fail e /\
      refreshes w' = refreshes w /\ users w' = users w /\ executed w' = sent) \/
   (exists user,
      fst (GetUser (telegramID ts) w) = ok user /\
      Token_Valid timeNow (FastmailToken user) = true /\
      r = ok (FastmailToken user) /\
      refreshes w' = refreshes w /\ users w' = users w /\ executed w' = sent) \/
   (exists user e,
      fst (GetUser (telegramID ts) w) = ok user /\
      Token_Valid timeNow (FastmailToken user) = false /\
      (baseTokenSource ts (refreshes w) = fail e \/
       exists token, baseTokenSource ts (refreshes w) = ok token /\
                     json_Marshal token = fail e) /\
      r = fail e /\
      refreshes w' = S (refreshes w) /\ users w' = users w /\ executed w' = sent) \/
   (exists user token b,
      fst (GetUser (telegramID ts) w) = ok user /\
      Token_Valid timeNow (FastmailToken user) = false /\
      baseTokenSource ts (refreshes w) = ok token /\
      json_Marshal token = ok b /\
      refreshes w' = S (refreshes w) /\
      executed w' = sent ++ [UPDATE_users_fastmail_token b (telegramID ts)] /\
      match driver_fault (S (List.length (executed w))) with
      | Some _ => r = fail (domain_error ErrSqliteInternal) /\ users w' = users w
      | None =>
          r = ok token /\
          users w' =
            map (fun r => if telegram_id r =? telegramID ts
                          then mkUserRow (telegram_id r) (Some b) (lang r)
                          else r) (users w)
      end)).
Proof.
  cbv zeta.
  pose proof (GetUser_frame (telegramID ts) w) as Hframe.
  remember (Token ts w) as T eqn:HT.
  unfold sqlite.Token, sqlite.bind at 1 in HT.
  destruct (GetUser (telegramID ts) w) as [[user|e] w1]; cbn in Hframe;
    destruct Hframe as (Hu & Hs & He & Hr).
  2:{ subst T; cbn. split; [assumption|]. left. exists e. auto. }
  destruct (Token_Valid timeNow (FastmailToken user)) eqn:Hvalid.
  { subst T; cbn. split; [assumption|]. right; left. exists user. auto 7. }
  unfold sqlite.bind at 1, sqlite.TokenSource_Token in HT. rewrite Hr in HT.
  destruct (baseTokenSource ts (refreshes w)) as [token|e] eqn:Hb.
  2:{ subst T; cbn. split; [assumption|]. right; right; left. exists user, e.
      auto 8. }
  destruct (json_Marshal token) as [b|e] eqn:Hm.
  2:{ subst T; cbn. split; [assumption|]. right; right; left. exists user, e.
      repeat split; eauto. }
  unfold sqlite.bind at 1 in HT.
  match type of HT with
  | context [UpdateToken ?i ?x ?w2] =>
      pose proof (UpdateToken_frame i x w2) as Hupd;
      destruct (UpdateToken i x w2) as [err w3]
  end.
  cbn in Hupd. destruct Hupd as (Hex & Hre & Hst & Hcase).
  rewrite He, length_app, Nat.add_comm in Hcase; cbn in Hcase.
  split.
  { destruct err; subst T; cbn; congruence. }
  right; right; right. exists user, token, b.
  do 4 (split; [first [reflexivity | assumption]|]).
  split; [destruct err; subst T; cbn; exact Hre|].
  split; [destruct err; subst T; cbn; rewrite Hex, He; reflexivity|].
  destruct (driver_fault _).
  - destruct Hcase as [-> Hrows]. subst T; cbn. split; [reflexivity|congruence].
  - destruct Hcase as [-> Hrows]. subst T; cbn. split; [reflexivity|congruence].
Qed.

(** *** Writing and reading back *)

(** X1. A token written by [UpdateToken] for an identity that has a row is
    what [GetUser] then returns for it, decoded, with the row's language;
    both statements run by the driver. *)
Theorem UpdateToken_then_GetUser id b w row t :
  driver_fault (List.length (executed w)) = None ->
  driver_fault (S (List.length (executed w))) = None ->
  find (fun r => telegram_id r =? id) (users w) = Some row ->
  json_Unmarshal b = ok t ->
  fst (UpdateToken id b w) = None /\
  fst (GetUser id (snd (UpdateToken id b w))) = ok (mkUser id t (lang row)).
Proof.
  intros Hf1 Hf2 Hrow Hdec.
  pose proof (UpdateToken_frame id b w) as Hframe.
  destruct (UpdateToken id b w) as [err w1]; cbn.
  destruct Hframe as (Hex & _ & _ & Hcase). rewrite Hf1 in Hcase.
  destruct Hcase as [-> Hrows]. split; [reflexivity|].
  destruct (find_some _ _ Hrow) as [_ Hkey].
  pose proof Hkey as Hid. apply Z.eqb_eq in Hid.
  rewrite (GetUser_found id w1 (mkUserRow (telegram_id row) (Some b) (lang row)) t).
  - cbn. rewrite Hid. reflexivity.
  - rewrite Hex, length_app, Nat.add_comm. exact Hf2.
  - rewrite Hrows, find_rewritten by reflexivity. rewrite Hrow; cbn.
    rewrite Hkey. reflexivity.
  - exact Hdec.
Qed.

(** X2. [UpdateToken] for an identity that has no row succeeds all the same
    when the driver runs the UPDATE, and stores nothing: the table is as it
    was. *)
Theorem UpdateToken_unknown_identity_stores_nothing id b w :
  driver_fault (List.length (executed w)) = None ->
  has_user id (users w) = false ->
  fst (UpdateToken id b w) = None /\
  users (snd (UpdateToken id b w)) = users w.
Proof.
  intros Hf Hno.
  pose proof (UpdateToken_frame id b w) as Hframe.
  destruct (UpdateToken id b w) as [err w1]; cbn.
  destruct Hframe as (_ & _ & _ & Hcase). rewrite Hf in Hcase.
  destruct Hcase as [-> Hrows]. split; [reflexivity|].
  rewrite Hrows. apply map_rewritten_absent. exact Hno.
Qed.

(** X3. Whatever the driver does, [UpdateToken] for one identity leaves the
    row of every other identity as it was, adds and removes no row, and
    changes no language and no authorization state. *)
Theorem UpdateToken_touches_one_identity id b w other :
  other <> id ->
  let w1 := snd (UpdateToken id b w) in
  find (fun r => telegram_id r =? other) (users w1) =
    find (fun r => telegram_id r =? other) (users w) /\
  map telegram_id (users w1) = map telegram_id (users w) /\
  map lang (users w1) = map lang (users w) /\
  oauth2_states w1 = oauth2_states w.
Proof.
  intros Hother. cbv zeta.
  pose proof (UpdateToken_frame id b w) as Hframe.
  destruct (UpdateToken id b w) as [err w1]; cbn.
  destruct Hframe as (_ & _ & Hst & Hcase).
  destruct (driver_fault _).
  - destruct Hcase as [_ ->]. auto.
  - destruct Hcase as [_ ->]. repeat split.
    + rewrite find_rewritten by reflexivity.
      destruct (find _ (users w)) as [r|] eqn:Hr; cbn; [|reflexivity].
      destruct (find_some _ _ Hr) as [_ Hkey]. apply Z.eqb_eq in Hkey.
      destruct (telegram_id r =? id) eqn:Hid; [|reflexivity].
      apply Z.eqb_eq in Hid. congruence.
    + apply map_rewritten_keys. reflexivity.
    + rewrite map_map. apply map_ext. intros r.
      destruct (telegram_id r =? id); reflexivity.
    + exact Hst.
Qed.

(** X4. A language written by [UpdateLanguageCode] for an identity that has
    a row is what [GetUser] then returns for it, together with the token the
    row already had; both statements run by the driver. *)
Theorem UpdateLanguageCode_then_GetUser id l w row t :
  driver_fault (List.length (executed w)) = None ->
  driver_fault (S (List.length (executed w))) = None ->
  find (fun r => telegram_id r =? id) (users w) = Some row ->
  match fastmail_token row with
  | Some blob => json_Unmarshal blob = ok t
  | None => t = None
  end ->
  fst (UpdateLanguageCode id l w) = None /\
  fst (GetUser id (snd (UpdateLanguageCode id l w))) = ok (mkUser id t l).
Proof.
  intros Hf1 Hf2 Hrow Hdec.
  pose proof (UpdateLanguageCode_frame id l w) as Hframe.
  destruct (UpdateLanguageCode id l w) as [err w1]; cbn.
  destruct Hframe as (Hex & _ & _ & Hcase). rewrite Hf1 in Hcase.
  destruct Hcase as [-> Hrows]. split; [reflexivity|].
  destruct (find_some _ _ Hrow) as [_ Hkey].
  pose proof Hkey as Hid. apply Z.eqb_eq in Hid.
  rewrite (GetUser_found id w1 (mkUserRow (telegram_id row) (fastmail_token row) l) t).
  - cbn. rewrite Hid. reflexivity.
  - rewrite Hex, length_app, Nat.add_comm. exact Hf2.
  - rewrite Hrows, find_rewritten by reflexivity. rewrite Hrow; cbn.
    rewrite Hkey. reflexivity.
  - exact Hdec.
Qed.

(** X5. A user created by [CreateUser] is what [GetUser] then returns: the
    identity, the language given, and no token; the identity new and both
    statements run by the driver. *)
Theorem CreateUser_then_GetUser id l w :
  driver_fault (List.length (executed w)) = None ->
  driver_fault (S (List.length (executed w))) = None ->
  has_user id (users w) = false ->
  fst (CreateUser id l w) = None /\
  fst (GetUser id (snd (CreateUser id l w))) = ok (mkUser id None l).
Proof.
  intros Hf1 Hf2 Hno.
  rewrite (CreateUser_runs id l w Hf1), Hno; cbn [fst snd].
  split; [reflexivity|].
  rewrite (GetUser_found id _ (mkUserRow id None l) None).
  - reflexivity.
  - cbn [executed]. rewrite length_app, Nat.add_comm. exact Hf2.
  - cbn [users]. rewrite find_snoc.
    rewrite has_user_find in Hno.
    destruct (find _ (users w)); [discriminate|].
    cbn. rewrite Z.eqb_refl. reflexivity.
  - reflexivity.
Qed.

(** X6. Whatever the driver does, [CreateUser] changes no row that is
    already there: a repeated registration overwrites neither the language
    nor the token of the identity, nor anything of another one. *)
Theorem CreateUser_keeps_existing_rows id l w other row :
  find (fun r => telegram_id r =? other) (users w) = Some row ->
  find (fun r => telegram_id r =? other) (users (snd (CreateUser id l w))) = Some row.
Proof.
  intros Hrow.
  pose proof (CreateUser_frame id l w) as Hframe.
  destruct (CreateUser id l w) as [err w1]; cbn.
  destruct Hframe as (_ & _ & _ & [[-> _]|(_ & _ & ->)]).
  - exact Hrow.
  - rewrite find_snoc, Hrow. reflexivity.
Qed.

(** X7. [CreateOAuth2State] for a nonce that is already stored fails with
    [ErrSqliteInternal] when the driver runs the INSERT (the duplicate key is
    not told apart here, as it is in [CreateUser]), and the state stored first
    stays: [GetOAuth2State] still returns its verifier and identity. *)
Theorem CreateOAuth2State_duplicate_nonce_keeps_first s v id w row :
  driver_fault (List.length (executed w)) = None ->
  driver_fault (S (List.length (executed w))) = None ->
  find (fun r => String.eqb (state r) s) (oauth2_states w) = Some row ->
  fst (CreateOAuth2State s v id w) = Some (domain_error ErrSqliteInternal) /\
  oauth2_states (snd (CreateOAuth2State s v id w)) = oauth2_states w /\
  fst (GetOAuth2State s (snd (CreateOAuth2State s v id w))) =
    ok (mkOAuth2State s (code_verifier row) (state_telegram_id row)).
Proof.
  intros Hf1 Hf2 Hrow.
  pose proof (CreateOAuth2State_frame s v id w) as Hframe.
  destruct (CreateOAuth2State s v id w) as [err w1]; cbn.
  destruct Hframe as (Hex & _ & _ & [(Hst & -> & _)|(Hno & _)]).
  - split; [reflexivity|]. split; [exact Hst|].
    run_adapter. rewrite Hex, length_app, Nat.add_comm; cbn.
    rewrite Hf2; cbn. rewrite Hst, Hrow. reflexivity.
  - rewrite has_state_find, Hrow in Hno. discriminate.
Qed.

(** X8. When the token column of the row cannot be decoded, [GetUser] fails
    with [ErrSqliteInternal] and logs the decoding error; it does not return
    the user without the token. *)
Theorem GetUser_undecodable_token_reports_Internal id w row blob e :
  driver_fault (List.length (executed w)) = None ->
  find (fun r => telegram_id r =? id) (users w) = Some row ->
  fastmail_token row = Some blob ->
  json_Unmarshal blob = fail e ->
  fst (GetUser id w) = fail (domain_error ErrSqliteInternal) /\
  logged (snd (GetUser id w)) =
    logged w ++ [(ErrorLevel, "Error while decoding a Fastmail token!", e)].
Proof.
  intros Hf Hrow Hblob Hdec. run_adapter; cbn.
  rewrite Hf; cbn. rewrite Hrow; cbn. rewrite Hblob, Hdec; cbn. auto.
Qed.

(** X9. None of the six methods of the adapter that send a statement
    ([CreateUser], [UpdateToken], [UpdateLanguageCode], [GetUser],
    [CreateOAuth2State], [GetOAuth2State]) lets an error of the driver
    through: each returns nil or one of the domain errors, and only
    [CreateUser] ever answers [ErrSqliteUserAlreadyExists], only the two
    lookups [ErrNoUser] and [ErrNoState]. *)
Theorem adapter_errors_are_domain_errors w :
  (forall id l,
     let err := fst (CreateUser id l w) in
     err = None \/ err = Some (domain_error ErrSqliteUserAlreadyExists) \/
     err = Some (domain_error ErrSqliteInternal)) /\
  (forall id b,
     let err := fst (UpdateToken id b w) in
     err = None \/ err = Some (domain_error ErrSqliteInternal)) /\
  (forall id l,
     let err := fst (UpdateLanguageCode id l w) in
     err = None \/ err = Some (domain_error ErrSqliteInternal)) /\
  (forall id e,
     fst (GetUser id w) = fail e ->
     e = domain_error ErrNoUser \/ e = domain_error ErrSqliteInternal) /\
  (forall s v id,
     let err := fst (CreateOAuth2State s v id w) in
     err = None \/ err = Some (domain_error ErrSqliteInternal)) /\
  (forall s e,
     fst (GetOAuth2State s w) = fail e ->
     e = domain_error ErrNoState \/ e = domain_error ErrSqliteInternal).
Proof.
  repeat split.
  - intros id l.
    pose proof (CreateUser_frame id l w) as H.
    destruct (CreateUser id l w) as [err w1]; cbn.
    destruct H as (_ & _ & _ & [[_ [->| ->]]|(_ & -> & _)]); auto.
  - intros id b.
    pose proof (UpdateToken_frame id b w) as H.
    destruct (UpdateToken id b w) as [err w1]; cbn.
    destruct H as (_ & _ & _ & H).
    destruct (driver_fault _); destruct H as [-> _]; auto.
  - intros id l.
    pose proof (UpdateLanguageCode_frame id l w) as H.
    destruct (UpdateLanguageCode id l w) as [err w1]; cbn.
    destruct H as (_ & _ & _ & H).
    destruct (driver_fault _); destruct H as [-> _]; auto.
  - intros id e H.
    destruct (GetUser id w) as [r w1] eqn:Hget. cbn in H. subst r.
    exact (GetUser_fail_inv id w e w1 Hget).
  - intros s v id.
    pose proof (CreateOAuth2State_frame s v id w) as H.
    destruct (CreateOAuth2State s v id w) as [err w1]; cbn.
    destruct H as (_ & _ & _ & [(_ & -> & _)|(_ & -> & _)]); auto.
  - intros s e. run_adapter; cbn.
    destruct (driver_fault _) as [e0|]; cbn.
    + destruct (errors_Is e0 sqlite3_ErrNotFound); cbn; intros [= <-]; auto.
    + destruct (find _ _); cbn; [discriminate|intros [= <-]; auto].
Qed.

(** *** Sequences of calls *)

Lemma has_state_In s rows :
  has_state s rows = true <-> In s (map state rows).
Proof.
  unfold has_state. rewrite existsb_exists, in_map_iff.
  split; intros (r & H1 & H2); exists r.
  - apply String.eqb_eq in H2. auto.
  - split; [assumption|]. apply String.eqb_eq. assumption.
Qed.

(** A call leaves the rows of [users] as they were, or adds one row of a
    new identity, or rewrites rows keeping their identities. *)
Lemma after_users c w :
  users (after c w) = users w \/
  (exists r, has_user (telegram_id r) (users w) = false /\
             users (after c w) = users w ++ [r]) \/
  (exists f, (forall r, telegram_id (f r) = telegram_id r) /\
             users (after c w) = map f (users w)).
Proof.
  destruct c as [id l|id tok|id l|id|s v id|s|ts]; unfold sqlite.after.
  - pose proof (CreateUser_frame id l w) as H.
    destruct (CreateUser id l w) as [err w1]; cbn.
    destruct H as (_ & _ & _ & [[-> _]|(Hno & _ & ->)]); [auto|].
    right; left. exists (mkUserRow id None l). auto.
  - pose proof (UpdateToken_frame id tok w) as H.
    destruct (UpdateToken id tok w) as [err w1]; cbn.
    destruct H as (_ & _ & _ & H).
    destruct (driver_fault _); destruct H as [_ ->]; [auto|].
    right; right. eexists. split; [|reflexivity].
    intros r. cbv beta. destruct (telegram_id r =? id); reflexivity.
  - pose proof (UpdateLanguageCode_frame id l w) as H.
    destruct (UpdateLanguageCode id l w) as [err w1]; cbn.
    destruct H as (_ & _ & _ & H).
    destruct (driver_fault _); destruct H as [_ ->]; [auto|].
    right; right. eexists. split; [|reflexivity].
    intros r. cbv beta. destruct (telegram_id r =? id); reflexivity.
  - left. apply (GetUser_frame id w).
  - pose proof (CreateOAuth2State_frame s v id w) as H.
    destruct (CreateOAuth2State s v id w) as [err w1]; cbn.
    left. apply H.
  - left. apply (GetOAuth2State_frame s w).
  - destruct (Token_cases ts w) as
      (_ & [(e & _ & _ & _ & -> & _)
           |[(u & _ & _ & _ & _ & -> & _)
            |[(u & e & _ & _ & _ & _ & _ & -> & _)
             |(u & token & b & _ & _ & _ & _ & _ & _ & H)]]]); auto.
    destruct (driver_fault _); destruct H as [_ ->]; [auto|].
    right; right. eexists. split; [|reflexivity].
    intros r. cbv beta. destruct (telegram_id r =? telegramID ts); reflexivity.
Qed.

(** A call leaves the rows of [oauth2_states] as they were, or adds one row
    of a new nonce. *)
Lemma after_states c w :
  oauth2_states (after c w) = oauth2_states w \/
  (exists r, has_state (state r) (oauth2_states w) = false /\
             oauth2_states (after c w) = oauth2_states w ++ [r]).
Proof.
  destruct c as [id l|id tok|id l|id|s v id|s|ts]; unfold sqlite.after.
  - pose proof (CreateUser_frame id l w) as H.
    destruct (CreateUser id l w) as [err w1]; cbn. left. apply H.
  - pose proof (UpdateToken_frame id tok w) as H.
    destruct (UpdateToken id tok w) as [err w1]; cbn. left. apply H.
  - pose proof (UpdateLanguageCode_frame id l w) as H.
    destruct (UpdateLanguageCode id l w) as [err w1]; cbn. left. apply H.
  - left. apply (GetUser_frame id w).
  - pose proof (CreateOAuth2State_frame s v id w) as H.
    destruct (CreateOAuth2State s v id w) as [err w1]; cbn.
    destruct H as (_ & _ & _ & [(-> & _)|(Hno & _ & _ & ->)]); [auto|].
    right. exists (mkStateRow s v id). auto.
  - left. apply (GetOAuth2State_frame s w).
  - left. apply (Token_cases ts w).
Qed.

(** X10. On tables with one row per identity and one row per nonce, every
    sequence of calls on the adapter and its token sources leaves tables of
    that kind, whatever the driver, the codec and the wrapped sources do. *)
Theorem calls_keep_one_row_per_key cs w :
  NoDup (map telegram_id (users w)) ->
  NoDup (map state (oauth2_states w)) ->
  NoDup (map telegram_id (users (after_all cs w))) /\
  NoDup (map state (oauth2_states (after_all cs w))).
Proof.
  revert w. induction cs as [|c cs IH]; intros w Hu Hs; cbn; [auto|].
  apply IH.
  - destruct (after_users c w) as [-> |[(r & Hno & ->)|(f & Hkey & ->)]].
    + exact Hu.
    + destruct r as [id blob l]. apply NoDup_keys_snoc; assumption.
    + rewrite map_map. erewrite map_ext; [exact Hu|]. exact Hkey.
  - destruct (after_states c w) as [-> |(r & Hno & ->)]; [exact Hs|].
    rewrite map_app; cbn. apply NoDup_app.
    + exact Hs.
    + constructor; [intros []|constructor].
    + intros k Hin [<-|[]]. apply has_state_In in Hin. congruence.
Qed.

(** X11. A state that [CreateOAuth2State] has stored is read back by
    [GetOAuth2State], with the verifier and the identity it was stored with,
    after any sequence of further calls (reads of the same nonce among
    them): no call changes or removes it, and reading does not consume it. *)
Theorem stored_state_is_read_back_after_any_calls s v id w cs :
  fst (CreateOAuth2State s v id w) = None ->
  let w' := after_all cs (snd (CreateOAuth2State s v id w)) in
  driver_fault (List.length (executed w')) = None ->
  fst (GetOAuth2State s w') = ok (mkOAuth2State s v id).
Proof.
  intros Hcreate w' Hf.
  assert (Hkept : forall cs w0,
            find (fun r => String.eqb (state r) s) (oauth2_states w0)
            = Some (mkStateRow s v id) ->
            find (fun r => String.eqb (state r) s) (oauth2_states (after_all cs w0))
            = Some (mkStateRow s v id)).
  { clear. induction cs as [|c cs IH]; intros w0 H0; cbn; [exact H0|].
    apply IH.
    destruct (after_states c w0) as [-> |(r & _ & ->)]; [exact H0|].
    rewrite find_snoc, H0. reflexivity. }
  assert (Hrow : find (fun r => String.eqb (state r) s) (oauth2_states w')
                 = Some (mkStateRow s v id)).
  { apply Hkept.
    pose proof (CreateOAuth2State_frame s v id w) as H.
    destruct (CreateOAuth2State s v id w) as [err w1]; cbn in *. subst err.
    destruct H as (_ & _ & _ & [(_ & Herr & _)|(Hno & _ & _ & ->)]);
      [discriminate|].
    apply find_state_snoc. exact Hno. }
  run_adapter; cbn. rewrite Hf; cbn. rewrite Hrow. reflexivity.
Qed.

(** X12. No sequence of calls removes a user or changes an identity: the
    identities in [users] before are, in the same order, the first ones
    after. *)
Theorem calls_never_delete_users cs w :
  exists added,
    map telegram_id (users (after_all cs w)) = map telegram_id (users w) ++ added.
Proof.
  revert w. induction cs as [|c cs IH]; intros w.
  - exists []. rewrite app_nil_r. reflexivity.
  - change (after_all (c :: cs) w) with (after_all cs (after c w)).
    destruct (IH (after c w)) as (added & ->).
    destruct (after_users c w) as [-> |[(r & _ & ->)|(f & Hkey & ->)]].
    + eauto.
    + rewrite map_app, <- app_assoc. eauto.
    + rewrite map_map. erewrite map_ext; [|exact Hkey]. eauto.
Qed.

(** *** More on the token source *)

(** X13. When the stored credential is not valid and the wrapped token
    source fails, [Token] returns the error of the wrapped source unchanged,
    after that one call; nothing is written: the table is as it was and only
    the SELECT was sent. *)
Theorem Token_refresh_failure_is_propagated ts w user e :
  fst (GetUser (telegramID ts) w) = ok user ->
  Token_Valid timeNow (FastmailToken user) = false ->
  baseTokenSource ts (refreshes w) = fail e ->
  fst (Token ts w) = fail e /\
  refreshes (snd (Token ts w)) = S (refreshes w) /\
  users (snd (Token ts w)) = users w /\
  executed (snd (Token ts w)) = executed w ++ [SELECT_users (telegramID ts)].
Proof.
  intros Hget Hvalid Hbase.
  destruct (Token_cases ts w) as
    (_ & [(e' & Hg & _)
         |[(u & Hg & Hv & _)
          |[(u & e' & Hg & Hv & Hwhy & Hr & Hn & Hu & He)
           |(u & token & b & Hg & Hv & Hb & _)]]]).
  - congruence.
  - congruence.
  - destruct Hwhy as [Hb|(token & Hb & _)]; [|congruence].
    assert (e' = e) by congruence. subst e'. auto.
  - congruence.
Qed.

(** X14. When the refreshed token cannot be serialised, [Token] returns the
    serialisation error; the refresh has been spent, and nothing is written:
    the table is as it was and no UPDATE was sent. *)
Theorem Token_marshal_failure_stores_nothing ts w user token e :
  fst (GetUser (telegramID ts) w) = ok user ->
  Token_Valid timeNow (FastmailToken user) = false ->
  baseTokenSource ts (refreshes w) = ok token ->
  json_Marshal token = fail e ->
  fst (Token ts w) = fail e /\
  refreshes (snd (Token ts w)) = S (refreshes w) /\
  users (snd (Token ts w)) = users w /\
  executed (snd (Token ts w)) = executed w ++ [SELECT_users (telegramID ts)].
Proof.
  intros Hget Hvalid Hbase Hmar.
  destruct (Token_cases ts w) as
    (_ & [(e' & Hg & _)
         |[(u & Hg & Hv & _)
          |[(u & e' & Hg & Hv & Hwhy & Hr & Hn & Hu & He)
           |(u & token' & b & Hg & Hv & Hb & Hm & _)]]]).
  - congruence.
  - congruence.
  - destruct Hwhy as [Hb|(token' & Hb & Hm)]; [congruence|].
    assert (e' = e) by congruence. subst e'. auto.
  - congruence.
Qed.

(** X15. After a refresh that was stored, the next call of [Token] is
    served from the store: when the serialised token decodes to itself and is
    valid, the second call returns it without calling the wrapped source and
    without writing. *)
Theorem Token_second_call_is_served_from_store ts w user token b :
  fst (GetUser (telegramID ts) w) = ok user ->
  Token_Valid timeNow (FastmailToken user) = false ->
  baseTokenSource ts (refreshes w) = ok token ->
  json_Marshal token = ok b ->
  json_Unmarshal b = ok token ->
  Token_Valid timeNow token = true ->
  driver_fault (S (List.length (executed w))) = None ->
  driver_fault (S (S (List.length (executed w)))) = None ->
  let w1 := snd (Token ts w) in
  fst (Token ts w) = ok token /\
  fst (Token ts w1) = ok token /\
  refreshes (snd (Token ts w1)) = S (refreshes w) /\
  users (snd (Token ts w1)) = users w1.
Proof.
  intros Hget Hvalid Hbase Hmar Hdec Hfresh Hf2 Hf3 w1.
  assert (Hfirst : fst (Token ts w) = ok token /\
                   refreshes w1 = S (refreshes w) /\
                   executed w1 =
                     (executed w ++ [SELECT_users (telegramID ts)]) ++
                     [UPDATE_users_fastmail_token b (telegramID ts)] /\
                   users w1 =
                     map (fun r => if telegram_id r =? telegramID ts
                                   then mkUserRow (telegram_id r) (Some b) (lang r)
                                   else r) (users w)).
  { subst w1.
    destruct (Token_cases ts w) as
      (_ & [(e' & Hg & _)
           |[(u & Hg & Hv & _)
            |[(u & e' & Hg & Hv & Hwhy & _)
             |(u & token' & b' & Hg & Hv & Hb & Hm & Hn & He & Hcase)]]]).
    - congruence.
    - congruence.
    - destruct Hwhy as [Hb|(token' & Hb & Hm)]; congruence.
    - assert (token' = token) by congruence. subst token'.
      assert (b' = b) by congruence. subst b'.
      rewrite Hf2 in Hcase. destruct Hcase as [Hr Hrows]. auto. }
  destruct Hfirst as (Hr1 & Hn1 & He1 & Hu1).
  split; [exact Hr1|].
  destruct (GetUser (telegramID ts) w) as [got w0] eqn:Hpair. cbn in Hget. subst got.
  destruct (GetUser_ok_inv _ _ _ _ Hpair) as (row & Hrow & _).
  destruct (find_some _ _ Hrow) as [_ Hkey].
  assert (Hget1 : fst (GetUser (telegramID ts) w1) =
                  ok (mkUser (telegram_id row) token (lang row))).
  { apply (GetUser_found (telegramID ts) w1
             (mkUserRow (telegram_id row) (Some b) (lang row)) token).
    - rewrite He1, !length_app, Nat.add_comm; cbn.
      rewrite Nat.add_comm; cbn. exact Hf3.
    - rewrite Hu1, find_rewritten by reflexivity. rewrite Hrow; cbn.
      rewrite Hkey. reflexivity.
    - exact Hdec. }
  destruct (Token_cases ts w1) as
    (_ & [(e' & Hg & _)
         |[(u & Hg & Hv & Hr & Hn & Hu & _)
          |[(u & e' & Hg & Hv & _)
           |(u & token' & b' & Hg & Hv & _)]]]).
  - congruence.
  - rewrite Hget1 in Hg. injection Hg as <-. cbn in Hr.
    rewrite Hr, Hn, Hn1. auto.
  - rewrite Hget1 in Hg. injection Hg as <-. cbn in Hv. congruence.
  - rewrite Hget1 in Hg. injection Hg as <-. cbn in Hv. congruence.
Qed.

(** X16. A token that [Token] returns is either the one [GetUser] found
    stored, and then that one is valid and the wrapped source was not called,
    or, the stored one being not valid, the one the wrapped source has just
    answered, and then its serialisation was sent in an UPDATE.  So [Token]
    hands out a stored token without a call of the wrapped source only when
    that token is valid. *)
Theorem Token_success_is_valid_or_fresh ts w t :
  fst (Token ts w) = ok t ->
  exists user,
    fst (GetUser (telegramID ts) w) = ok user /\
    ((FastmailToken user = t /\
      Token_Valid timeNow (FastmailToken user) = true /\
      refreshes (snd (Token ts w)) = refreshes w /\
      executed (snd (Token ts w)) = executed w ++ [SELECT_users (telegramID ts)]) \/
     (Token_Valid timeNow (FastmailToken user) = false /\
      baseTokenSource ts (refreshes w) = ok t /\
      refreshes (snd (Token ts w)) = S (refreshes w) /\
      exists b,
        json_Marshal t = ok b /\
        executed (snd (Token ts w)) =
          executed w ++ [SELECT_users (telegramID ts);
                         UPDATE_users_fastmail_token b (telegramID ts)])).
Proof.
  intros Hok.
  destruct (Token_cases ts w) as
    (_ & [(e' & _ & Hr & _)
         |[(u & Hg & Hv & Hr & Hn & _ & He)
          |[(u & e' & _ & _ & _ & Hr & _)
           |(u & token & b & Hg & Hv & Hb & Hm & Hn & He & Hcase)]]]).
  - congruence.
  - exists u. split; [exact Hg|]. left.
    rewrite Hr in Hok. injection Hok as <-. auto.
  - congruence.
  - exists u. split; [exact Hg|]. right.
    destruct (driver_fault _); destruct Hcase as [Hr _]; [congruence|].
    rewrite Hr in Hok. injection Hok as <-.
    split; [exact Hv|]. split; [exact Hb|]. split; [exact Hn|].
    exists b. split; [exact Hm|]. rewrite He, <- app_assoc. reflexivity.
Qed.

(** X17. Whatever happens, [Token] for one identity leaves the row of every
    other identity as it was, adds and removes no row, and changes no
    language and no authorization state. *)
Theorem Token_touches_one_identity ts w other :
  other <> telegramID ts ->
  let w1 := snd (Token ts w) in
  find (fun r => telegram_id r =? other) (users w1) =
    find (fun r => telegram_id r =? other) (users w) /\
  map telegram_id (users w1) = map telegram_id (users w) /\
  map lang (users w1) = map lang (users w) /\
  oauth2_states w1 = oauth2_states w.
Proof.
  intros Hother. cbv zeta.
  destruct (Token_cases ts w) as
    (Hst & [(e & _ & _ & _ & -> & _)
           |[(u & _ & _ & _ & _ & -> & _)
            |[(u & e & _ & _ & _ & _ & _ & -> & _)
             |(u & token & b & _ & _ & _ & _ & _ & _ & Hcase)]]]); auto.
  destruct (driver_fault _); destruct Hcase as [_ ->]; [auto|].
  repeat split.
  - rewrite find_rewritten by reflexivity.
    destruct (find _ (users w)) as [r|] eqn:Hr; cbn; [|reflexivity].
    destruct (find_some _ _ Hr) as [_ Hkey]. apply Z.eqb_eq in Hkey.
    destruct (telegram_id r =? telegramID ts) eqn:Hid; [|reflexivity].
    apply Z.eqb_eq in Hid. congruence.
  - apply map_rewritten_keys. reflexivity.
  - rewrite map_map. apply map_ext. intros r.
    destruct (telegram_id r =? telegramID ts); reflexivity.
  - exact Hst.
Qed.

(** X18. A call of [Token] calls the wrapped source at most once and sends
    the SELECT and at most one UPDATE, for its own identity, and an UPDATE
    only after a call of the wrapped source. *)
Theorem Token_refreshes_and_writes_at_most_once ts w :
  let w1 := snd (Token ts w) in
  (refreshes w1 = refreshes w /\
   executed w1 = executed w ++ [SELECT_users (telegramID ts)]) \/
  (refreshes w1 = S (refreshes w) /\
   (executed w1 = executed w ++ [SELECT_users (telegramID ts)] \/
    exists b,
      executed w1 =
        executed w ++ [SELECT_users (telegramID ts);
                       UPDATE_users_fastmail_token b (telegramID ts)])).
Proof.
  cbv zeta.
  destruct (Token_cases ts w) as
    (_ & [(e & _ & _ & Hn & _ & He)
         |[(u & _ & _ & _ & Hn & _ & He)
          |[(u & e & _ & _ & _ & _ & Hn & _ & He)
           |(u & token & b & _ & _ & _ & _ & Hn & He & _)]]]); auto.
  right. split; [exact Hn|]. right. exists b.
  rewrite He, <- app_assoc. reflexivity.
Qed.

End AdapterFacts.

(** *** The statements above on the sample environments *)

Lemma Token_returns_valid_stored_credential_witness :
  sqlite.Token Sample.healthy Sample.marshal Sample.unmarshal Sample.now
    Sample.source (Sample.with_user (Some "{access-3}"))
  = (ok (Some Sample.lasting),
     sqlite.mkWorld [sqlite.mkUserRow 42 (Some "{access-3}") "en"] []
       [sqlite.SELECT_users 42] [] 0).
Proof.
  refine (proj1 (Token_returns_valid_stored_credential
                   Sample.healthy Sample.marshal Sample.unmarshal Sample.now
                   Sample.source (Sample.with_user (Some "{access-3}"))
                   (sqlite.mkUser 42 (Some Sample.lasting) "en") _ Sample.lasting
                   eq_refl eq_refl _ _)).
  - discriminate.
  - right. vm_compute. discriminate.
Defined.

(** C1, as the claim words it, fails: a stored credential that is present
    and expires only in five seconds is not returned; the wrapped token
    source is called and its answer written over the stored credential.  So
    is a stored credential that never expires but has no access token. *)
Lemma Token_refreshes_unexpired_stored_credential :
  (let w := Sample.with_user (Some "{access-4}") in
   let T := sqlite.Token Sample.healthy Sample.marshal Sample.unmarshal Sample.now
              Sample.source w in
   fst (sqlite.GetUser Sample.healthy Sample.unmarshal 42 w)
   = ok (sqlite.mkUser 42 (Some Sample.closing) "en") /\
   Sample.now < Expiry Sample.closing /\
   fst T = ok (Some Sample.renewed) /\
   fst T <> ok (Some Sample.closing) /\
   sqlite.refreshes (snd T) = 1%nat /\
   sqlite.executed (snd T) =
     [sqlite.SELECT_users 42; sqlite.UPDATE_users_fastmail_token "{access-2}" 42] /\
   sqlite.users (snd T) = [sqlite.mkUserRow 42 (Some "{access-2}") "en"]) /\
  (let w := Sample.with_user (Some "{}") in
   let T := sqlite.Token Sample.healthy Sample.marshal Sample.unmarshal Sample.now
              Sample.source w in
   fst (sqlite.GetUser Sample.healthy Sample.unmarshal 42 w)
   = ok (sqlite.mkUser 42 (Some Sample.nameless) "en") /\
   Token_expired Sample.now Sample.nameless = false /\
   fst T = ok (Some Sample.renewed) /\
   sqlite.refreshes (snd T) = 1%nat /\
   sqlite.executed (snd T) =
     [sqlite.SELECT_users 42; sqlite.UPDATE_users_fastmail_token "{access-2}" 42]).
Proof.
  cbv zeta. repeat split; try reflexivity. discriminate.
Qed.

Lemma Token_refreshes_invalid_stored_credential_witness :
  let T := sqlite.Token Sample.healthy Sample.marshal Sample.unmarshal
             Sample.now Sample.source (Sample.with_user (Some "{access-0}")) in
  sqlite.refreshes (snd T) = 1%nat /\
  fst T = ok (Some Sample.renewed) /\
  sqlite.executed (snd T) =
    [sqlite.SELECT_users 42; sqlite.UPDATE_users_fastmail_token "{access-2}" 42] /\
  sqlite.users (snd T) = [sqlite.mkUserRow 42 (Some "{access-2}") "en"].
Proof.
  destruct (Token_refreshes_invalid_stored_credential
              Sample.healthy Sample.marshal Sample.unmarshal Sample.now
              Sample.source (Sample.with_user (Some "{access-0}"))
              (sqlite.mkUser 42 (Some Sample.stale) "en") _ eq_refl eq_refl)
    as [Hcalls Hwrite].
  split; [exact Hcalls|].
  exact (Hwrite (Some Sample.renewed) "{access-2}" eq_refl eq_refl eq_refl).
Defined.

Lemma Token_fails_when_persistence_fails_witness :
  fst (sqlite.Token (Sample.failing_at 1) Sample.marshal Sample.unmarshal
         Sample.now Sample.source (Sample.with_user None))
  = fail (domain_error ErrSqliteInternal).
Proof.
  exact (f_equal fst
           (proj1 (Token_fails_when_persistence_fails
                     (Sample.failing_at 1) Sample.marshal Sample.unmarshal
                     Sample.now Sample.source (Sample.with_user None)
                     (sqlite.mkUser 42 None "en") _ (Some Sample.renewed) "{access-2}"
                     _ (domain_error ErrSqliteInternal) _
                     eq_refl eq_refl eq_refl eq_refl eq_refl))).
Defined.

Lemma Token_propagates_GetUser_failure_witness :
  fst (sqlite.Token (Sample.failing_at 0) Sample.marshal Sample.unmarshal
         Sample.now Sample.source (Sample.with_user (Some "{access-1}")))
  = fail (domain_error ErrSqliteInternal).
Proof.
  exact (f_equal fst
           (proj1 (Token_propagates_GetUser_failure
                     (Sample.failing_at 0) Sample.marshal Sample.unmarshal
                     Sample.now Sample.source
                     (Sample.with_user (Some "{access-1}"))
                     (domain_error ErrSqliteInternal) _ eq_refl))).
Defined.

Lemma CreateUser_twice_one_row_witness :
  (let (err1, w1) := sqlite.CreateUser Sample.healthy 42 "en" Sample.empty in
   let (err2, w2) := sqlite.CreateUser Sample.healthy 42 "de" w1 in
   List.length (sqlite.users_with 42 (sqlite.users w2)) = 1%nat /\
   err2 = Some (domain_error ErrSqliteUserAlreadyExists)) /\
  fst (sqlite.CreateUser (Sample.failing_at 0) 42 "en" Sample.empty)
  = Some (domain_error ErrSqliteInternal).
Proof.
  destruct (CreateUser_twice_one_row Sample.healthy 42 "en" "de" Sample.empty)
    as [Htwice _].
  destruct (CreateUser_twice_one_row (Sample.failing_at 0) 42 "en" "de" Sample.empty)
    as [_ Hother].
  split.
  - specialize (Htwice (NoDup_nil Z) eq_refl eq_refl).
    cbv beta iota zeta in Htwice |- *.
    destruct (sqlite.CreateUser Sample.healthy 42 "en" Sample.empty) as [err1 w1].
    destruct (sqlite.CreateUser Sample.healthy 42 "de" w1) as [err2 w2].
    destruct Htwice as (Hone & _ & Herr & _). split; assumption.
  - refine (proj1 (Hother (sqlite3_Error 10 10) eq_refl _)).
    intros sqliteErr [= <-]. cbn. discriminate.
Defined.

Lemma GetUser_missing_row_reports_Internal_witness :
  fst (sqlite.GetUser Sample.healthy Sample.unmarshal 7 (Sample.with_user None))
  = fail (domain_error ErrSqliteInternal).
Proof.
  exact (proj1 (GetUser_missing_row_reports_Internal
                  Sample.healthy Sample.unmarshal 7 (Sample.with_user None)
                  eq_refl eq_refl)).
Defined.

Lemma GetOAuth2State_unknown_nonce_reports_Internal_witness :
  fst (sqlite.GetOAuth2State Sample.healthy "nonce" Sample.empty)
  = fail (domain_error ErrSqliteInternal).
Proof.
  exact (proj1 (GetOAuth2State_unknown_nonce_reports_Internal
                  Sample.healthy "nonce" Sample.empty eq_refl eq_refl)).
Defined.

(** ** The update loop *)

(** [strings.Split] always answers at least one piece, so [data[0]] is in
    range. *)
Lemma strings_Split_cons s sep :
  exists piece pieces, telegram.strings_Split s sep = piece :: pieces.
Proof.
  induction s as [|c s IH]; cbn.
  - eauto.
  - destruct (Ascii.eqb c sep); [eauto|].
    destruct (telegram.strings_Split s sep); eauto.
Qed.

(** Joining the pieces with the separator gives the string back. *)
Lemma strings_Split_Join s sep :
  String.concat (String sep EmptyString) (telegram.strings_Split s sep) = s.
Proof.
  induction s as [|c s IH]; cbn; [reflexivity|].
  destruct (Ascii.eqb c sep) eqn:Hc.
  - apply Ascii.eqb_eq in Hc. subst c.
    destruct (strings_Split_cons s sep) as (p & ps & Hs).
    rewrite Hs in *. cbn in *. rewrite IH. reflexivity.
  - destruct (telegram.strings_Split s sep) as [|p ps]; cbn in *.
    + subst s. reflexivity.
    + destruct ps; cbn in *; rewrite IH; reflexivity.
Qed.

(** No piece holds the separator. *)
Lemma strings_Split_pieces s sep piece :
  In piece (telegram.strings_Split s sep) ->
  String.index 0 (String sep EmptyString) piece = None.
Proof.
  revert piece. induction s as [|c s IH]; cbn; intros piece.
  - intros [<-|[]]. reflexivity.
  - destruct (Ascii.eqb c sep) eqn:Hc.
    + intros [<-|Hin]; [reflexivity|auto].
    + destruct (telegram.strings_Split s sep) as [|p ps]; cbn.
      * intros [<-|[]]. cbn.
        destruct (ascii_dec sep c) as [->|_]; [|reflexivity].
        rewrite Ascii.eqb_refl in Hc. discriminate.
      * intros [<-|Hin]; [|apply IH; right; assumption].
        specialize (IH p (or_introl eq_refl)). cbn.
        destruct (ascii_dec sep c) as [->|_].
        { rewrite Ascii.eqb_refl in Hc. discriminate. }
        destruct p; cbn in *; [reflexivity|].
        rewrite IH. reflexivity.
Qed.

(** A string without separator is the first piece of whatever it is put
    in front of, up to a separator. *)
Lemma strings_Split_first p sep rest :
  telegram.strings_Split p sep = [p] ->
  exists pieces,
    telegram.strings_Split (p ++ String sep rest) sep = p :: pieces.
Proof.
  induction p as [|c p IH]; cbn.
  - intros _. rewrite Ascii.eqb_refl. eauto.
  - destruct (Ascii.eqb c sep); [discriminate|].
    destruct (strings_Split_cons p sep) as (piece & pieces & Hp).
    rewrite Hp in *.
    intros [= -> ->]. destruct (IH eq_refl) as (ps & ->). eauto.
Qed.

(** *** Cutting the command out of the text *)

Lemma length_append_string (a b : string) :
  String.length (a ++ b) = (String.length a + String.length b)%nat.
Proof. induction a as [|c a IH]; cbn; [reflexivity|]. rewrite IH. reflexivity. Qed.

Lemma substring_append (a b : string) :
  String.substring 0 (String.length a) (a ++ b) = a.
Proof.
  induction a as [|c a IH]; cbn.
  - destruct b; reflexivity.
  - rewrite IH. reflexivity.
Qed.

Lemma append_assoc_string (a b c : string) :
  ((a ++ b) ++ c)%string = (a ++ (b ++ c))%string.
Proof. induction a as [|x a IH]; cbn; [reflexivity|]. rewrite IH. reflexivity. Qed.

Lemma append_empty_string (a : string) : (a ++ "")%string = a.
Proof. induction a as [|x a IH]; cbn; [reflexivity|]. rewrite IH. reflexivity. Qed.

Lemma prefix_one (a c : ascii) (x : string) :
  String.prefix (String a "") (String c x) =
    if ascii_dec a c then true else false.
Proof.
  pose proof (String.prefix_correct (String a "") (String c x)) as Hspec.
  destruct (ascii_dec a c) as [->|Hne].
  - apply Hspec. cbn. destruct x; reflexivity.
  - destruct (String.prefix (String a "") (String c x)); [|reflexivity].
    destruct Hspec as [Hsub _]. specialize (Hsub eq_refl). cbn in Hsub.
    destruct x; injection Hsub as Hac; congruence.
Qed.

Lemma index_cons (a c : ascii) (x : string) :
  String.index 0 (String a "") (String c x) =
    if ascii_dec a c then Some 0%nat
    else match String.index 0 (String a "") x with
         | Some n => Some (S n)
         | None => None
         end.
Proof.
  change (String.index 0 (String a "") (String c x))
    with (if String.prefix (String a "") (String c x) then Some 0%nat
          else match String.index 0 (String a "") x with
               | Some n => Some (S n)
               | None => None
               end).
  rewrite prefix_one. destruct (ascii_dec a c); reflexivity.
Qed.

(** The first at sign of a name without one, followed by one, is at the
    end of the name. *)
Lemma index_at_after_name (name rest : string) :
  String.index 0 "@" name = None ->
  String.index 0 "@" (name ++ String "@" rest) = Some (String.length name).
Proof.
  induction name as [|c name IH]; cbn [String.append String.length].
  - intros _. rewrite index_cons.
    destruct (ascii_dec "@" "@"); [reflexivity|congruence].
  - rewrite !index_cons.
    destruct (ascii_dec "@" c) as [_|_]; [discriminate|].
    destruct (String.index 0 "@" name) eqn:Hname; [discriminate|].
    intros _. rewrite (IH eq_refl). reflexivity.
Qed.

(** A message whose text starts with a slash, a name without at sign and,
    may be, an at sign and a bot name, all of it covered by a first entity
    of type bot_command, is a command of that name. *)
Lemma Command_of_text m name suffix tail others :
  telegram.Text m = String "/" (name ++ suffix ++ tail) ->
  telegram.Entities m =
    telegram.mkMessageEntity "bot_command" 0
      (Z.of_nat (S (String.length name + String.length suffix))) :: others ->
  String.index 0 "@" name = None ->
  suffix = "" \/ (exists bot, suffix = String "@" bot) ->
  telegram.IsCommand m = true /\ telegram.Command m = Some name.
Proof.
  intros Htext Hentities Hname Hsuffix.
  assert (Hcmd : telegram.IsCommand m = true).
  { unfold telegram.IsCommand. rewrite Hentities. reflexivity. }
  split; [exact Hcmd|].
  assert (Hwith : telegram.CommandWithAt m = Some (name ++ suffix)%string).
  { unfold telegram.CommandWithAt. rewrite Hcmd, Hentities; cbn [negb telegram.Length].
    unfold telegram.slice. rewrite Htext. cbn [String.length].
    rewrite <- append_assoc_string, length_append_string, length_append_string.
    replace ((0 <=? 1) && (1 <=? Z.of_nat (S (String.length name + String.length suffix)))
             && (Z.of_nat (S (String.length name + String.length suffix))
                 <=? Z.of_nat (S (String.length name + String.length suffix
                                   + String.length tail))))
      with true
      by (symmetry; rewrite !andb_true_iff, !Z.leb_le; lia).
    replace (Z.to_nat (Z.of_nat (S (String.length name + String.length suffix)) - 1))
      with (String.length (name ++ suffix)) by (rewrite length_append_string; lia).
    change (Z.to_nat 1) with 1%nat. cbn [String.substring].
    rewrite substring_append. reflexivity. }
  unfold telegram.Command. rewrite Hwith.
  destruct Hsuffix as [-> |(bot & ->)].
  - rewrite append_empty_string, Hname. reflexivity.
  - rewrite (index_at_after_name name bot Hname).
    unfold telegram.slice.
    replace ((0 <=? 0) && (0 <=? Z.of_nat (String.length name))
             && (Z.of_nat (String.length name)
                 <=? Z.of_nat (String.length (name ++ String "@" bot))))
      with true
      by (symmetry; rewrite !andb_true_iff, !Z.leb_le, length_append_string; lia).
    rewrite Z.sub_0_r, Nat2Z.id. change (Z.to_nat 0) with 0%nat.
    rewrite substring_append. reflexivity.
Qed.

Section DeliveryFacts.

Import telegram.

Variable St : Type.
Variable Bundle : Type.
Variable d_bundle : Bundle.
Variable handler :
  Handler -> Localizer Bundle -> Update -> St -> option error * St.

Local Abbreviation World := (telegram.World St Bundle).
Local Abbreviation serve := (telegram.serve d_bundle handler).
Local Abbreviation ListenAndServe := (telegram.ListenAndServe d_bundle handler).
Local Abbreviation call_and_log := (telegram.call_and_log handler).
Local Abbreviation spec_step := (telegram.spec_step d_bundle handler).
Local Abbreviation spec_localizer := (telegram.spec_localizer d_bundle).

(** What a routed call leaves behind. *)
Lemma call_and_log_run h localizer u msg (w : World) :
  call_and_log h localizer u msg w =
    Some (tt,
          mkWorld
            (snd (handler h localizer u (inner w)))
            (events w ++
               Called h localizer u ::
               match fst (handler h localizer u (inner w)) with
               | Some e => [LoggedError msg e]
               | None => []
               end)).
Proof.
  unfold telegram.call_and_log, telegram.call, telegram.bind,
    telegram.logger_Error, telegram.ret.
  destruct (handler h localizer u (inner w)) as [[e|] s]; cbn.
  - rewrite <- app_assoc. reflexivity.
  - reflexivity.
Qed.

(** On a dispatchable update the loop body routes as the specification
    words it; on any other it panics. *)
Lemma serve_refines_spec u (w : World) :
  serve u w = if dispatchable u then Some (tt, spec_step u w) else None.
Proof.
  unfold telegram.serve, telegram.dispatchable, telegram.spec_step,
    telegram.spec_route, telegram.spec_localizer, telegram.spec_language,
    telegram.spec_discriminator, telegram.spec_command, telegram.CallbackData.
  destruct (Message_ u) as [m|].
  - destruct (From m) as [from|]; [|reflexivity].
    destruct (IsCommand m);
      [destruct (Command m) as [command|];
       [destruct (String.eqb command "start")|reflexivity]|];
      rewrite call_and_log_run; cbn;
      destruct (handler _ _ _ _) as [[e|] s]; reflexivity.
  - destruct (CallbackQuery_ u) as [q|].
    + destruct (strings_Split_cons (Data q) ":"%char) as (d0 & ds & Hsplit).
      rewrite Hsplit; cbn.
      destruct (String.eqb d0 "id"); [|destruct (String.eqb d0 "prefix")];
        try rewrite call_and_log_run; cbn;
        try destruct (handler _ _ _ _) as [[e|] s]; reflexivity.
    + destruct (InlineQuery_ u) as [q|]; [|reflexivity].
      rewrite call_and_log_run; cbn.
      destruct (handler _ _ _ _) as [[e|] s]; reflexivity.
Qed.

(** On dispatchable updates the loop runs the body on every one and
    returns nil; it panics at the first update that is not. *)
Lemma ListenAndServe_refines_spec updates (w : World) :
  ListenAndServe updates w =
    if forallb dispatchable updates
    then Some (None, fold_left (fun w u => spec_step u w) updates w)
    else None.
Proof.
  revert w. induction updates as [|u rest IH]; intros w; cbn.
  - reflexivity.
  - unfold telegram.bind. rewrite serve_refines_spec.
    destruct (dispatchable u); cbn; [apply IH|reflexivity].
Qed.

Lemma calls_app (evs1 evs2 : list (Event Bundle)) :
  calls (evs1 ++ evs2) =
    calls evs1 ++ calls evs2.
Proof. unfold telegram.calls. apply flat_map_app. Qed.

Lemma calls_spec_step u (w : World) :
  calls (events (spec_step u w)) =
    calls (events w) ++ telegram.spec_routed [u].
Proof.
  unfold telegram.spec_step, telegram.spec_routed.
  cbn [flat_map]. rewrite app_nil_r.
  destruct (spec_route u) as [h|].
  - destruct (handler _ _ _ _) as [[e|] s]; cbn [events];
      rewrite calls_app; reflexivity.
  - rewrite app_nil_r. reflexivity.
Qed.

(** Every update that has a handler reaches it, in order, whatever the
    handlers return. *)
Lemma calls_fold_spec_step updates (w : World) :
  calls
    (events (fold_left (fun w u => spec_step u w) updates w)) =
  calls (events w) ++ telegram.spec_routed updates.
Proof.
  revert w. induction updates as [|u rest IH]; intros w; cbn.
  - rewrite app_nil_r. reflexivity.
  - rewrite IH, calls_spec_step. unfold telegram.spec_routed; cbn.
    rewrite <- app_assoc, app_nil_r. reflexivity.
Qed.

(** C8. For an update that carries a callback query (and no message), the
    payload is split on the colon and its first piece decides: "id" runs
    [enableMaskedEmail], "prefix" runs [generateMaskedEmailWithInlineButton],
    each with the localizer of the sender's language and with its failure
    logged; any other first piece leaves the world as it is: no handler is
    called and nothing is logged. *)
Theorem callback_routed_by_first_segment u q (w : World) :
  Message_ u = None ->
  CallbackQuery_ u = Some q ->
  let localizer :=
    NewLocalizer d_bundle [LanguageCode (CallbackQuery_From q)] in
  exists data0 others,
    strings_Split (Data q) ":"%char = data0 :: others /\
    (data0 = "id" ->
     serve u w = call_and_log enableMaskedEmail localizer u
                   "Error while enabling a masked email!" w) /\
    (data0 = "prefix" ->
     serve u w = call_and_log generateMaskedEmailWithInlineButton localizer u
                   "Error while generating a masked email!" w) /\
    (data0 <> "id" -> data0 <> "prefix" -> serve u w = Some (tt, w)).
Proof.
  intros Hm Hq localizer.
  destruct (strings_Split_cons (Data q) ":"%char) as (d0 & ds & Hsplit).
  exists d0, ds. split; [exact Hsplit|].
  unfold telegram.serve, telegram.CallbackData. rewrite Hm, Hq, Hsplit.
  repeat split.
  - intros ->. reflexivity.
  - intros ->. reflexivity.
  - intros Hid Hprefix.
    apply String.eqb_neq in Hid, Hprefix. rewrite Hid, Hprefix. reflexivity.
Qed.

(** C9. When the handler of a dispatchable update returns an error, the
    loop body records the call and logs the error with the message of that
    handler, and the loop goes on with the next update from the state the
    handler left: when that update is dispatchable it is routed and its
    handler called.  On dispatchable updates, whatever the handlers return,
    the loop ends only at the end of the updates, returns nil, and has called
    the handler of every update that has one, in order. *)
Theorem handler_error_is_logged_and_loop_goes_on u1 u2 rest (w : World) h1 e s1 :
  dispatchable u1 = true ->
  dispatchable u2 = true ->
  spec_route u1 = Some h1 ->
  handler h1 (spec_localizer u1) u1 (inner w) = (Some e, s1) ->
  let w1 :=
    mkWorld s1
      (events w ++
         [Called h1 (spec_localizer u1) u1;
          LoggedError (spec_message h1) e]) in
  serve u1 w = Some (tt, w1) /\
  ListenAndServe (u1 :: u2 :: rest) w = ListenAndServe (u2 :: rest) w1 /\
  (forall h2,
     spec_route u2 = Some h2 ->
     exists w2 logs,
       serve u2 w1 = Some (tt, w2) /\
       inner w2 = snd (handler h2 (spec_localizer u2) u2 s1) /\
       events w2 =
         events w1 ++ Called h2 (spec_localizer u2) u2 :: logs) /\
  (forallb dispatchable rest = true ->
   exists w',
     ListenAndServe (u1 :: u2 :: rest) w = Some (None, w') /\
     calls (events w') =
       calls (events w) ++ telegram.spec_routed (u1 :: u2 :: rest)).
Proof.
  intros Hd1 Hd2 Hroute Hfail w1.
  assert (Hstep : spec_step u1 w = w1).
  { unfold telegram.spec_step. rewrite Hroute.
    fold (spec_localizer u1). rewrite Hfail. reflexivity. }
  assert (Hserve : serve u1 w = Some (tt, w1)).
  { rewrite serve_refines_spec, Hd1, Hstep. reflexivity. }
  split; [exact Hserve|]. split; [|split].
  - cbn [telegram.ListenAndServe].
    unfold telegram.bind at 1. rewrite Hserve. reflexivity.
  - intros h2 Hroute2. rewrite serve_refines_spec, Hd2.
    unfold telegram.spec_step. rewrite Hroute2. fold (spec_localizer u2).
    cbn [inner w1].
    destruct (handler h2 (spec_localizer u2) u2 (inner w1)) as [err s2] eqn:Hh.
    subst w1. cbn [inner] in Hh. rewrite Hh.
    eexists _, _. split; [reflexivity|]. split; reflexivity.
  - intros Hrest. eexists. split.
    + rewrite ListenAndServe_refines_spec. cbn [forallb].
      rewrite Hd1, Hd2, Hrest. reflexivity.
    + apply calls_fold_spec_step.
Qed.

(** C10. An update with no message, no callback query and no inline query
    leaves the world as it is (no handler is called, nothing is logged, no
    panic), and the loop goes on with the next update. *)
Theorem blank_update_is_skipped u rest (w : World) :
  Message_ u = None ->
  CallbackQuery_ u = None ->
  InlineQuery_ u = None ->
  serve u w = Some (tt, w) /\
  ListenAndServe (u :: rest) w = ListenAndServe rest w.
Proof.
  intros Hm Hq Hi.
  assert (Hserve : serve u w = Some (tt, w)).
  { unfold telegram.serve. rewrite Hm, Hq, Hi. reflexivity. }
  split; [exact Hserve|].
  cbn [telegram.ListenAndServe].
  unfold telegram.bind at 1. rewrite Hserve. reflexivity.
Qed.

(** *** More on the loop *)

Lemma errors_logged_app (evs1 evs2 : list (Event Bundle)) :
  errors_logged (evs1 ++ evs2) = errors_logged evs1 ++ errors_logged evs2.
Proof. unfold telegram.errors_logged. apply flat_map_app. Qed.

Lemma length_spec_routed updates :
  (List.length (telegram.spec_routed updates) <= List.length updates)%nat.
Proof.
  unfold telegram.spec_routed.
  induction updates as [|u rest IH]; cbn [flat_map List.length]; [lia|].
  rewrite length_app. destruct (spec_route u); cbn; lia.
Qed.

(** X19. The loop body panics exactly on the updates that are not
    dispatchable (a message without sender, a command whose first entity
    cannot be cut out of the text).  On every other update it ends, and it
    either leaves the world as it was or has called exactly one handler, on
    that update: the state is the one the handler left, and the error the
    handler returned, if any, is logged once, nothing being logged
    otherwise. *)
Theorem serve_calls_at_most_one_handler u (w : World) :
  if dispatchable u
  then exists w',
         serve u w = Some (tt, w') /\
         (w' = w \/
          exists h localizer,
            inner w' = snd (handler h localizer u (inner w)) /\
            match fst (handler h localizer u (inner w)) with
            | None => events w' = events w ++ [Called h localizer u]
            | Some e =>
                exists msg,
                  events w' =
                    events w ++ [Called h localizer u; LoggedError msg e]
            end)
  else serve u w = None.
Proof.
  rewrite serve_refines_spec.
  destruct (dispatchable u); [|reflexivity].
  exists (spec_step u w). split; [reflexivity|].
  unfold telegram.spec_step.
  destruct (spec_route u) as [h|]; [|left; reflexivity].
  right. exists h, (spec_localizer u).
  destruct (handler h (spec_localizer u) u (inner w)) as [[e|] s]; cbn; eauto.
Qed.

(** X20. When every update is dispatchable the loop, whatever the handlers
    return, ends when the updates end, returns nil, and has called at most
    one handler per update; when some update is not, the loop panics and
    returns nothing. *)
Theorem ListenAndServe_returns_nil_or_panics updates (w : World) :
  if forallb dispatchable updates
  then exists w',
         ListenAndServe updates w = Some (None, w') /\
         (List.length (calls (events w'))
          <= List.length (calls (events w)) + List.length updates)%nat
  else ListenAndServe updates w = None.
Proof.
  rewrite ListenAndServe_refines_spec.
  destruct (forallb dispatchable updates); [|reflexivity].
  eexists. split; [reflexivity|].
  rewrite calls_fold_spec_step, length_app.
  pose proof (length_spec_routed updates). lia.
Qed.

(** X21. When no handler fails, the loop logs nothing. *)
Theorem ListenAndServe_logs_only_failures updates (w : World) :
  (forall h localizer u s, fst (handler h localizer u s) = None) ->
  forall w',
    ListenAndServe updates w = Some (None, w') ->
    errors_logged (events w') = errors_logged (events w).
Proof.
  intros Hquiet w'. rewrite ListenAndServe_refines_spec.
  destruct (forallb dispatchable updates); [|discriminate].
  intros [= <-].
  revert w. induction updates as [|u rest IH]; intros w; cbn [fold_left];
    [reflexivity|].
  rewrite IH. unfold telegram.spec_step.
  destruct (spec_route u) as [h|]; [|reflexivity].
  specialize (Hquiet h (spec_localizer u) u (inner w)).
  destruct (handler h (spec_localizer u) u (inner w)) as [err s].
  cbn [fst] in Hquiet. subst err. cbn [events].
  rewrite errors_logged_app. cbn. apply app_nil_r.
Qed.

(** X23. An update that carries a message goes by the message alone,
    whatever else it carries.  Without sender the loop body panics.  With a
    sender, a message that does not start with a bot_command entity goes to
    [generateMaskedEmail]; a message whose text starts with a slash and a
    name, or with a slash, a name, an at sign and a bot name, all of it
    covered by the first entity, goes to [startCommand] when the name is
    "start" and to [anyOtherCommand] when it is another one; each with the
    localizer of the sender's language. *)
Theorem message_routed_by_command u m (w : World) :
  Message_ u = Some m ->
  (From m = None -> serve u w = None) /\
  (forall from,
     From m = Some from ->
     let localizer := NewLocalizer d_bundle [LanguageCode from] in
     (IsCommand m = false ->
      serve u w = call_and_log generateMaskedEmail localizer u
                    "Error while handling a link!" w) /\
     (forall name suffix tail others,
        Text m = String "/" (name ++ suffix ++ tail) ->
        Entities m =
          mkMessageEntity "bot_command" 0
            (Z.of_nat (S (String.length name + String.length suffix))) :: others ->
        String.index 0 "@" name = None ->
        suffix = "" \/ (exists bot, suffix = String "@" bot) ->
        serve u w =
          call_and_log
            (if String.eqb name "start" then startCommand else anyOtherCommand)
            localizer u "Error while handling command!" w)).
Proof.
  intros Hm. unfold telegram.serve. rewrite Hm. split.
  - intros ->. reflexivity.
  - intros from ->. cbv zeta. split.
    + intros ->. reflexivity.
    + intros name suffix tail others Htext Hentities Hname Hsuffix.
      destruct (Command_of_text m name suffix tail others
                  Htext Hentities Hname Hsuffix) as [-> ->].
      destruct (String.eqb name "start"); reflexivity.
Qed.

(** An update that carries an inline query, and neither a message nor a
    callback query, goes to [answerInlineQueryWithEmail], with the localizer
    of the sender's language. *)
Lemma inline_query_routed u q (w : World) :
  Message_ u = None ->
  CallbackQuery_ u = None ->
  InlineQuery_ u = Some q ->
  serve u w =
    call_and_log answerInlineQueryWithEmail
      (NewLocalizer d_bundle [LanguageCode (InlineQuery_From q)]) u
      "Error while trying to answer inline query!" w.
Proof.
  intros Hm Hc Hi. unfold telegram.serve. rewrite Hm, Hc, Hi. reflexivity.
Qed.

(** X24. A callback payload that is "id", or "id:" followed by anything,
    goes to [enableMaskedEmail]; one that is "prefix", or "prefix:" followed
    by anything, to [generateMaskedEmailWithInlineButton]; the empty payload
    goes nowhere. *)
Theorem callback_payload_routed u q (w : World) :
  Message_ u = None ->
  CallbackQuery_ u = Some q ->
  let localizer := NewLocalizer d_bundle [LanguageCode (CallbackQuery_From q)] in
  (forall args,
     Data q = "id" \/ Data q = ("id:" ++ args)%string ->
     serve u w = call_and_log enableMaskedEmail localizer u
                   "Error while enabling a masked email!" w) /\
  (forall args,
     Data q = "prefix" \/ Data q = ("prefix:" ++ args)%string ->
     serve u w = call_and_log generateMaskedEmailWithInlineButton localizer u
                   "Error while generating a masked email!" w) /\
  (Data q = "" -> serve u w = Some (tt, w)).
Proof.
  intros Hm Hq localizer.
  unfold telegram.serve, telegram.CallbackData. rewrite Hm, Hq.
  repeat split.
  - intros args [-> | ->]; [reflexivity|].
    destruct (strings_Split_first "id" ":"%char args eq_refl) as (ps & Hps).
    change (strings_Split ("id:" ++ args) ":"%char = "id" :: ps) in Hps.
    rewrite Hps. reflexivity.
  - intros args [-> | ->]; [reflexivity|].
    destruct (strings_Split_first "prefix" ":"%char args eq_refl) as (ps & Hps).
    change (strings_Split ("prefix:" ++ args) ":"%char = "prefix" :: ps) in Hps.
    rewrite Hps. reflexivity.
  - intros ->. reflexivity.
Qed.

End DeliveryFacts.

(** *** The statements above on the sample handlers *)

Lemma callback_routed_by_first_segment_witness :
  telegram.serve tt Sample.counting (Sample.callback "id:17") Sample.start
  = Some (tt,
          telegram.mkWorld 1%nat
            [telegram.Called telegram.enableMaskedEmail
               (telegram.NewLocalizer tt ["en"]) (Sample.callback "id:17");
             telegram.LoggedError "Error while enabling a masked email!"
               (errors_New "upstream failure")]) /\
  telegram.serve tt Sample.counting (Sample.callback "prefix:shop") Sample.start
  = Some (tt,
          telegram.mkWorld 1%nat
            [telegram.Called telegram.generateMaskedEmailWithInlineButton
               (telegram.NewLocalizer tt ["en"]) (Sample.callback "prefix:shop")]) /\
  telegram.serve tt Sample.counting (Sample.callback "other:1") Sample.start
  = Some (tt, Sample.start).
Proof.
  pose proof (fun payload =>
                callback_routed_by_first_segment nat unit tt Sample.counting
                  (Sample.callback payload)
                  (telegram.mkCallbackQuery (telegram.mkUser "en") payload)
                  Sample.start eq_refl eq_refl) as H.
  cbv zeta in H.
  split; [|split].
  - destruct (H "id:17") as (d0 & ds & Hsplit & Hid & _ & _).
    injection Hsplit as <- _. exact (Hid eq_refl).
  - destruct (H "prefix:shop") as (d0 & ds & Hsplit & _ & Hprefix & _).
    injection Hsplit as <- _. exact (Hprefix eq_refl).
  - destruct (H "other:1") as (d0 & ds & Hsplit & _ & _ & Hother).
    injection Hsplit as <- _. apply Hother; discriminate.
Defined.

Lemma handler_error_is_logged_and_loop_goes_on_witness :
  exists w',
    telegram.ListenAndServe tt Sample.counting
      [Sample.callback "id:17"; Sample.command "start"] Sample.start
    = Some (None, w') /\
    telegram.calls (telegram.events w') =
      [(telegram.enableMaskedEmail, Sample.callback "id:17");
       (telegram.startCommand, Sample.command "start")].
Proof.
  exact (proj2 (proj2 (proj2
    (handler_error_is_logged_and_loop_goes_on nat unit tt Sample.counting
       (Sample.callback "id:17") (Sample.command "start") [] Sample.start
       telegram.enableMaskedEmail (errors_New "upstream failure") 1%nat
       eq_refl eq_refl eq_refl eq_refl))) eq_refl).
Defined.

(** C9, as the claim words it, fails: after an update whose handler
    returned an error (which is logged), a message without sender makes the
    loop body panic on whatever world, so that message, which has a handler,
    never reaches it, and the loop ends although the updates have not. *)
Lemma loop_panics_on_message_without_sender :
  telegram.serve tt Sample.counting (Sample.callback "id:17") Sample.start
  = Some (tt,
          telegram.mkWorld 1%nat
            [telegram.Called telegram.enableMaskedEmail
               (telegram.NewLocalizer tt ["en"]) (Sample.callback "id:17");
             telegram.LoggedError "Error while enabling a masked email!"
               (errors_New "upstream failure")]) /\
  telegram.spec_route (Sample.anonymous "https://example.com")
  = Some telegram.generateMaskedEmail /\
  (forall w : telegram.World nat unit,
     telegram.serve tt Sample.counting (Sample.anonymous "https://example.com") w
     = None) /\
  telegram.ListenAndServe tt Sample.counting
    [Sample.callback "id:17"; Sample.anonymous "https://example.com";
     Sample.callback "prefix:shop"] Sample.start
  = None.
Proof.
  repeat split.
Qed.

Lemma blank_update_is_skipped_witness :
  telegram.ListenAndServe tt Sample.counting
    [Sample.blank; Sample.callback "prefix:shop"] Sample.start
  = telegram.ListenAndServe tt Sample.counting [Sample.callback "prefix:shop"] Sample.start.
Proof.
  exact (proj2 (blank_update_is_skipped nat unit tt Sample.counting
                  Sample.blank [Sample.callback "prefix:shop"] Sample.start
                  eq_refl eq_refl eq_refl)).
Defined.

(** *** The further statements on the sample environments *)

Lemma UpdateToken_then_GetUser_witness :
  fst (sqlite.GetUser Sample.healthy Sample.unmarshal 42
         (snd (sqlite.UpdateToken Sample.healthy 42 "{access-1}" (Sample.with_user None))))
  = ok (sqlite.mkUser 42 (Some Sample.fresh) "en").
Proof.
  exact (proj2 (UpdateToken_then_GetUser Sample.healthy Sample.unmarshal
                  42 "{access-1}" (Sample.with_user None)
                  (sqlite.mkUserRow 42 None "en") (Some Sample.fresh)
                  eq_refl eq_refl eq_refl eq_refl)).
Defined.

Lemma UpdateToken_unknown_identity_stores_nothing_witness :
  fst (sqlite.UpdateToken Sample.healthy 7 "{access-1}" (Sample.with_user None)) = None /\
  sqlite.users (snd (sqlite.UpdateToken Sample.healthy 7 "{access-1}" (Sample.with_user None)))
  = [sqlite.mkUserRow 42 None "en"].
Proof.
  exact (UpdateToken_unknown_identity_stores_nothing Sample.healthy
           7 "{access-1}" (Sample.with_user None) eq_refl eq_refl).
Defined.

Lemma UpdateToken_touches_one_identity_witness :
  find (fun r => sqlite.telegram_id r =? 43)
    (sqlite.users (snd (sqlite.UpdateToken Sample.healthy 42 "{access-2}" Sample.two_users)))
  = Some (sqlite.mkUserRow 43 (Some "{access-1}") "fr").
Proof.
  refine (proj1 (UpdateToken_touches_one_identity Sample.healthy
                   42 "{access-2}" Sample.two_users 43 _)).
  discriminate.
Defined.

Lemma UpdateLanguageCode_then_GetUser_witness :
  fst (sqlite.GetUser Sample.healthy Sample.unmarshal 42
         (snd (sqlite.UpdateLanguageCode Sample.healthy 42 "de"
                 (Sample.with_user (Some "{access-1}")))))
  = ok (sqlite.mkUser 42 (Some Sample.fresh) "de").
Proof.
  exact (proj2 (UpdateLanguageCode_then_GetUser Sample.healthy Sample.unmarshal
                  42 "de" (Sample.with_user (Some "{access-1}"))
                  (sqlite.mkUserRow 42 (Some "{access-1}") "en") (Some Sample.fresh)
                  eq_refl eq_refl eq_refl eq_refl)).
Defined.

Lemma CreateUser_then_GetUser_witness :
  fst (sqlite.GetUser Sample.healthy Sample.unmarshal 42
         (snd (sqlite.CreateUser Sample.healthy 42 "en" Sample.empty)))
  = ok (sqlite.mkUser 42 None "en").
Proof.
  exact (proj2 (CreateUser_then_GetUser Sample.healthy Sample.unmarshal
                  42 "en" Sample.empty eq_refl eq_refl eq_refl)).
Defined.

Lemma CreateUser_keeps_existing_rows_witness :
  find (fun r => sqlite.telegram_id r =? 42)
    (sqlite.users (snd (sqlite.CreateUser Sample.healthy 42 "de"
                          (Sample.with_user (Some "{access-1}")))))
  = Some (sqlite.mkUserRow 42 (Some "{access-1}") "en").
Proof.
  exact (CreateUser_keeps_existing_rows Sample.healthy 42 "de"
           (Sample.with_user (Some "{access-1}")) 42
           (sqlite.mkUserRow 42 (Some "{access-1}") "en") eq_refl).
Defined.

Lemma CreateOAuth2State_duplicate_nonce_keeps_first_witness :
  fst (sqlite.CreateOAuth2State Sample.healthy "nonce" "other" 7 Sample.with_state)
  = Some (domain_error ErrSqliteInternal) /\
  sqlite.oauth2_states
    (snd (sqlite.CreateOAuth2State Sample.healthy "nonce" "other" 7 Sample.with_state))
  = [sqlite.mkStateRow "nonce" "verifier" 42] /\
  fst (sqlite.GetOAuth2State Sample.healthy "nonce"
         (snd (sqlite.CreateOAuth2State Sample.healthy "nonce" "other" 7 Sample.with_state)))
  = ok (sqlite.mkOAuth2State "nonce" "verifier" 42).
Proof.
  exact (CreateOAuth2State_duplicate_nonce_keeps_first Sample.healthy
           "nonce" "other" 7 Sample.with_state
           (sqlite.mkStateRow "nonce" "verifier" 42) eq_refl eq_refl eq_refl).
Defined.

Lemma GetUser_undecodable_token_reports_Internal_witness :
  fst (sqlite.GetUser Sample.healthy Sample.unmarshal 42 (Sample.with_user (Some "{")))
  = fail (domain_error ErrSqliteInternal).
Proof.
  exact (proj1 (GetUser_undecodable_token_reports_Internal
                  Sample.healthy Sample.unmarshal 42 (Sample.with_user (Some "{"))
                  (sqlite.mkUserRow 42 (Some "{") "en") "{"
                  (errors_New "invalid character")
                  eq_refl eq_refl eq_refl eq_refl)).
Defined.

Lemma adapter_errors_are_domain_errors_witness :
  domain_error ErrSqliteInternal = domain_error ErrNoUser \/
  domain_error ErrSqliteInternal = domain_error ErrSqliteInternal.
Proof.
  exact (proj1 (proj2 (proj2 (proj2
           (adapter_errors_are_domain_errors Sample.healthy Sample.unmarshal
              Sample.empty))))
           7 (domain_error ErrSqliteInternal) eq_refl).
Defined.

Lemma calls_keep_one_row_per_key_witness :
  let w' :=
    sqlite.after_all Sample.healthy Sample.marshal Sample.unmarshal Sample.now
      [sqlite.Call_CreateUser 42 "en"; sqlite.Call_CreateUser 42 "de";
       sqlite.Call_Token Sample.source;
       sqlite.Call_CreateOAuth2State "nonce" "verifier" 42]
      Sample.empty in
  NoDup (map sqlite.telegram_id (sqlite.users w')) /\
  NoDup (map sqlite.state (sqlite.oauth2_states w')).
Proof.
  exact (calls_keep_one_row_per_key
           Sample.healthy Sample.marshal Sample.unmarshal Sample.now
           [sqlite.Call_CreateUser 42 "en"; sqlite.Call_CreateUser 42 "de";
            sqlite.Call_Token Sample.source;
            sqlite.Call_CreateOAuth2State "nonce" "verifier" 42]
           Sample.empty (NoDup_nil _) (NoDup_nil _)).
Defined.

Lemma stored_state_is_read_back_after_any_calls_witness :
  fst (sqlite.GetOAuth2State Sample.healthy "nonce"
         (sqlite.after_all Sample.healthy Sample.marshal Sample.unmarshal Sample.now
            [sqlite.Call_CreateOAuth2State "nonce" "forged" 7;
             sqlite.Call_GetOAuth2State "nonce";
             sqlite.Call_CreateUser 42 "en"]
            (snd (sqlite.CreateOAuth2State Sample.healthy "nonce" "verifier" 42
                    Sample.empty))))
  = ok (sqlite.mkOAuth2State "nonce" "verifier" 42).
Proof.
  exact (stored_state_is_read_back_after_any_calls
           Sample.healthy Sample.marshal Sample.unmarshal Sample.now
           "nonce" "verifier" 42 Sample.empty
           [sqlite.Call_CreateOAuth2State "nonce" "forged" 7;
            sqlite.Call_GetOAuth2State "nonce";
            sqlite.Call_CreateUser 42 "en"]
           eq_refl eq_refl).
Defined.

Lemma Token_refresh_failure_is_propagated_witness :
  fst (sqlite.Token Sample.healthy Sample.marshal Sample.unmarshal Sample.now
         (sqlite.NewTokenSource Sample.unreachable 42) (Sample.with_user None))
  = fail (errors_New "oauth2: cannot fetch token").
Proof.
  exact (proj1 (Token_refresh_failure_is_propagated
                  Sample.healthy Sample.marshal Sample.unmarshal Sample.now
                  (sqlite.NewTokenSource Sample.unreachable 42) (Sample.with_user None)
                  (sqlite.mkUser 42 None "en")
                  (errors_New "oauth2: cannot fetch token")
                  eq_refl eq_refl eq_refl)).
Defined.

Lemma Token_marshal_failure_stores_nothing_witness :
  let T := sqlite.Token Sample.healthy Sample.unserialisable Sample.unmarshal
             Sample.now Sample.source (Sample.with_user None) in
  fst T = fail (errors_New "json: error calling MarshalJSON") /\
  sqlite.refreshes (snd T) = 1%nat /\
  sqlite.users (snd T) = [sqlite.mkUserRow 42 None "en"] /\
  sqlite.executed (snd T) = [sqlite.SELECT_users 42].
Proof.
  exact (Token_marshal_failure_stores_nothing
           Sample.healthy Sample.unserialisable Sample.unmarshal Sample.now
           Sample.source (Sample.with_user None)
           (sqlite.mkUser 42 None "en") (Some Sample.renewed)
           (errors_New "json: error calling MarshalJSON")
           eq_refl eq_refl eq_refl eq_refl).
Defined.

Lemma Token_second_call_is_served_from_store_witness :
  let Token := sqlite.Token Sample.healthy Sample.marshal Sample.unmarshal
                 Sample.now Sample.source in
  let w1 := snd (Token (Sample.with_user (Some "{access-0}"))) in
  fst (Token (Sample.with_user (Some "{access-0}"))) = ok (Some Sample.renewed) /\
  fst (Token w1) = ok (Some Sample.renewed) /\
  sqlite.refreshes (snd (Token w1)) = 1%nat /\
  sqlite.users (snd (Token w1)) = sqlite.users w1.
Proof.
  exact (Token_second_call_is_served_from_store
           Sample.healthy Sample.marshal Sample.unmarshal Sample.now
           Sample.source (Sample.with_user (Some "{access-0}"))
           (sqlite.mkUser 42 (Some Sample.stale) "en") (Some Sample.renewed)
           "{access-2}"
           eq_refl eq_refl eq_refl eq_refl eq_refl eq_refl eq_refl eq_refl).
Defined.

Lemma Token_success_is_valid_or_fresh_witness :
  let w := Sample.with_user (Some "{access-0}") in
  let T := sqlite.Token Sample.healthy Sample.marshal Sample.unmarshal Sample.now
             Sample.source w in
  exists user,
    fst (sqlite.GetUser Sample.healthy Sample.unmarshal 42 w) = ok user /\
    ((sqlite.FastmailToken user = Some Sample.renewed /\
      Token_Valid Sample.now (sqlite.FastmailToken user) = true /\
      sqlite.refreshes (snd T) = 0%nat /\
      sqlite.executed (snd T) = [sqlite.SELECT_users 42]) \/
     (Token_Valid Sample.now (sqlite.FastmailToken user) = false /\
      Sample.renewing 0%nat = ok (Some Sample.renewed) /\
      sqlite.refreshes (snd T) = 1%nat /\
      exists b,
        Sample.marshal (Some Sample.renewed) = ok b /\
        sqlite.executed (snd T) =
          [sqlite.SELECT_users 42; sqlite.UPDATE_users_fastmail_token b 42])).
Proof.
  exact (Token_success_is_valid_or_fresh
           Sample.healthy Sample.marshal Sample.unmarshal Sample.now
           Sample.source (Sample.with_user (Some "{access-0}"))
           (Some Sample.renewed) eq_refl).
Defined.

Lemma Token_touches_one_identity_witness :
  find (fun r => sqlite.telegram_id r =? 43)
    (sqlite.users
       (snd (sqlite.Token Sample.healthy Sample.marshal Sample.unmarshal Sample.now
               Sample.source Sample.two_users)))
  = Some (sqlite.mkUserRow 43 (Some "{access-1}") "fr").
Proof.
  refine (proj1 (Token_touches_one_identity
                   Sample.healthy Sample.marshal Sample.unmarshal Sample.now
                   Sample.source Sample.two_users 43 _)).
  discriminate.
Defined.

Lemma ListenAndServe_logs_only_failures_witness :
  telegram.errors_logged
    (telegram.events
       (telegram.mkWorld 2%nat
          [telegram.Called telegram.enableMaskedEmail
             (telegram.NewLocalizer tt ["en"]) (Sample.callback "id:17");
           telegram.Called telegram.answerInlineQueryWithEmail
             (telegram.NewLocalizer tt ["fr"]) (Sample.inline "shop")]))
  = telegram.errors_logged (telegram.events Sample.start).
Proof.
  exact (ListenAndServe_logs_only_failures nat unit tt Sample.quiet
           [Sample.callback "id:17"; Sample.blank; Sample.inline "shop"]
           Sample.start (fun _ _ _ _ => eq_refl) _ eq_refl).
Defined.

Lemma message_routed_by_command_witness :
  telegram.serve tt Sample.counting Sample.addressed Sample.start
  = telegram.call_and_log Sample.counting telegram.startCommand
      (telegram.NewLocalizer tt ["de"]) Sample.addressed
      "Error while handling command!" Sample.start /\
  telegram.serve tt Sample.counting (Sample.command "help") Sample.start
  = telegram.call_and_log Sample.counting telegram.anyOtherCommand
      (telegram.NewLocalizer tt ["de"]) (Sample.command "help")
      "Error while handling command!" Sample.start /\
  telegram.serve tt Sample.counting (Sample.text "https://example.com") Sample.start
  = telegram.call_and_log Sample.counting telegram.generateMaskedEmail
      (telegram.NewLocalizer tt ["de"]) (Sample.text "https://example.com")
      "Error while handling a link!" Sample.start /\
  telegram.serve tt Sample.counting (Sample.anonymous "https://example.com")
    Sample.start
  = None.
Proof.
  split; [|split; [|split]].
  - refine (proj2 (proj2 (message_routed_by_command nat unit tt Sample.counting
                            Sample.addressed _ Sample.start eq_refl)
                     _ eq_refl)
              "start" "@MaskedEmailBot" " now" [] eq_refl eq_refl eq_refl _).
    right. exists "MaskedEmailBot". reflexivity.
  - exact (proj2 (proj2 (message_routed_by_command nat unit tt Sample.counting
                           (Sample.command "help") _ Sample.start eq_refl)
                    _ eq_refl)
             "help" "" "" [] eq_refl eq_refl eq_refl (or_introl eq_refl)).
  - exact (proj1 (proj2 (message_routed_by_command nat unit tt Sample.counting
                           (Sample.text "https://example.com") _ Sample.start
                           eq_refl)
                    _ eq_refl) eq_refl).
  - exact (proj1 (message_routed_by_command nat unit tt Sample.counting
                    (Sample.anonymous "https://example.com") _ Sample.start
                    eq_refl) eq_refl).
Defined.

Lemma inline_query_routed_witness :
  telegram.serve tt Sample.counting (Sample.inline "shop") Sample.start
  = Some (tt,
          telegram.mkWorld 1%nat
            [telegram.Called telegram.answerInlineQueryWithEmail
               (telegram.NewLocalizer tt ["fr"]) (Sample.inline "shop")]).
Proof.
  exact (inline_query_routed nat unit tt Sample.counting (Sample.inline "shop")
           (telegram.mkInlineQuery (telegram.mkUser "fr") "shop") Sample.start
           eq_refl eq_refl eq_refl).
Defined.

Lemma callback_payload_routed_witness :
  telegram.serve tt Sample.counting (Sample.callback "prefix:shop:eu") Sample.start
  = telegram.call_and_log Sample.counting telegram.generateMaskedEmailWithInlineButton
      (telegram.NewLocalizer tt ["en"]) (Sample.callback "prefix:shop:eu")
      "Error while generating a masked email!" Sample.start.
Proof.
  exact (proj1 (proj2
           (callback_payload_routed nat unit tt Sample.counting
              (Sample.callback "prefix:shop:eu")
              (telegram.mkCallbackQuery (telegram.mkUser "en") "prefix:shop:eu")
              Sample.start eq_refl eq_refl))
           "shop:eu" (or_intror eq_refl)).
Defined.
